(** * pb-calendar: the ICS generator [generate-ics.py] and its fixed-parameter
    demonstration [tests/test-ics.py], embedded and verified.

    Layout of the development:
    - [Py]          the fragments of Python's runtime the program relies on
                    (exceptions, [int], [str.split], [datetime], [timedelta],
                    [strptime] for the one format the program uses);
    - [ICal]        the [icalendar] component tree and its [add] /
                    [add_component] operations;
    - [GenerateIcs] [load_or_create_calendar], [compute_start], [main];
    - [TestIcs]     the first-occurrence computation of [create_pb_hustle_ics];
    - the theorems, one block per property of the specification. *)

From Stdlib Require Import ZArith String Ascii List Bool Lia.
From stdpp Require Import base gmap strings list.

Open Scope string_scope.
Open Scope Z_scope.

(* ===================================================================== *)
(** * Python runtime                                                      *)
(* ===================================================================== *)

Module Py.

(** The exception classes that can escape the program. *)
Inductive exception : Type :=
  | ValueError
  | OverflowError
  | TypeError
  | UnknownTimeZoneError
  | OSError
  | UnicodeEncodeError.

(** A computation either returns or raises. *)
Inductive result (A : Type) : Type :=
  | Ok (a : A)
  | Raise (e : exception).
Arguments Ok {A} a.
Arguments Raise {A} e.

#[global] Instance result_ret : MRet result := fun _ a => Ok a.
#[global] Instance result_bind : MBind result := fun _ _ k r =>
  match r with
  | Ok a => k a
  | Raise e => Raise e
  end.

(** ** [int(str)]

    A Python [str] is modelled by a Rocq [string], one character for one
    code point; this covers the texts whose code points are below 256.
    On such a text [int] strips white space on both sides -- the ASCII
    characters 9 to 13 and 32, and the code points 0x85 and 0xA0, which it
    turns into a space beforehand; the separators 0x1C to 0x1F are not
    stripped -- reads an optional sign, and then decimal digits in which
    single underscores may separate digits.  Below 256 the only decimal
    digits are the ASCII ones.  A text with more than 4300 digits is refused
    (the default of [sys.get_int_max_str_digits()], CPython 3.11 and
    later).  Every failure is a [ValueError]. *)

Definition is_space (c : ascii) : bool :=
  let n := N_of_ascii c in
  (((9 <=? n) && (n <=? 13)) || (n =? 32) || (n =? 133) || (n =? 160))%N.

Definition MAX_STR_DIGITS : nat := 4300.

Definition is_digit (c : ascii) : bool :=
  let n := N_of_ascii c in ((48 <=? n) && (n <=? 57))%N.

Definition digit_val (c : ascii) : Z := Z.of_N (N_of_ascii c) - 48.

Fixpoint lstrip (s : list ascii) : list ascii :=
  match s with
  | c :: s' => if is_space c then lstrip s' else s
  | [] => []
  end.

Definition strip (s : list ascii) : list ascii :=
  rev (lstrip (rev (lstrip s))).

(** [digits acc after_digit s]: [after_digit] tells whether the previous
    character was a digit, which is what an underscore and the end of the
    text both require. *)
Fixpoint digits (acc : Z) (after_digit : bool) (s : list ascii) : option Z :=
  match s with
  | [] => if after_digit then Some acc else None
  | c :: s' =>
      if is_digit c then digits (acc * 10 + digit_val c) true s'
      else if (Ascii.eqb c "_" && after_digit)%bool then digits acc false s'
      else None
  end.

Definition int (s : string) : result Z :=
  let body := strip (list_ascii_of_string s) in
  let parsed :=
    match body with
    | "-"%char :: ds => option_map Z.opp (digits 0 false ds)
    | "+"%char :: ds => digits 0 false ds
    | ds => digits 0 false ds
    end in
  match parsed with
  | Some n =>
      if (MAX_STR_DIGITS <? length (List.filter is_digit body))%nat
      then Raise ValueError else Ok n
  | None => Raise ValueError
  end.

(** ** [str.split(sep)] for a one-character separator: never empty. *)
Fixpoint split (sep : ascii) (s : string) : list string :=
  match s with
  | EmptyString => [EmptyString]
  | String c s' =>
      if Ascii.eqb c sep then EmptyString :: split sep s'
      else match split sep s' with
           | f :: fs => String c f :: fs
           | [] => [String c EmptyString]
           end
  end.

(** ** Calendar arithmetic ([datetime] module, proleptic Gregorian) *)

Definition MAXORDINAL : Z := 3652059.   (* date(9999, 12, 31).toordinal() *)
Definition MINYEAR : Z := 1.
Definition MAXYEAR : Z := 9999.

Definition is_leap (year : Z) : bool :=
  (year mod 4 =? 0) && (negb (year mod 100 =? 0) || (year mod 400 =? 0)).

Definition days_before_year (year : Z) : Z :=
  let y := year - 1 in y * 365 + y / 4 - y / 100 + y / 400.

Definition DAYS_IN_MONTH : list Z :=
  [31; 28; 31; 30; 31; 30; 31; 31; 30; 31; 30; 31].

Definition DAYS_BEFORE_MONTH : list Z :=
  [0; 31; 59; 90; 120; 151; 181; 212; 243; 273; 304; 334].

Definition days_in_month (year month : Z) : Z :=
  if (month =? 2) && is_leap year then 29
  else nth (Z.to_nat (month - 1)) DAYS_IN_MONTH 0.

Definition days_before_month (year month : Z) : Z :=
  nth (Z.to_nat (month - 1)) DAYS_BEFORE_MONTH 0
  + (if (2 <? month) && is_leap year then 1 else 0).

Definition ymd2ord (year month day : Z) : Z :=
  days_before_year year + days_before_month year month + day.

Definition DI400Y : Z := 146097.
Definition DI100Y : Z := 36524.
Definition DI4Y : Z := 1461.

Definition ord2ymd (ordinal : Z) : Z * Z * Z :=
  let n := ordinal - 1 in
  let n400 := n / DI400Y in let n := n mod DI400Y in
  let n100 := n / DI100Y in let n := n mod DI100Y in
  let n4 := n / DI4Y in let n := n mod DI4Y in
  let n1 := n / 365 in let n := n mod 365 in
  let year := n400 * 400 + 1 + n100 * 100 + n4 * 4 + n1 in
  if (n1 =? 4) || (n100 =? 4) then (year - 1, 12, 31)
  else
    let leapyear := (n1 =? 3) && (negb (n4 =? 24) || (n100 =? 3)) in
    let month := Z.shiftr (n + 50) 5 in
    let preceding :=
      nth (Z.to_nat (month - 1)) DAYS_BEFORE_MONTH 0
      + (if (2 <? month) && leapyear then 1 else 0) in
    if n <? preceding then
      let month' := month - 1 in
      let preceding' :=
        preceding - (nth (Z.to_nat (month' - 1)) DAYS_IN_MONTH 0
                     + (if (month' =? 2) && leapyear then 1 else 0)) in
      (year, month', n - preceding' + 1)
    else (year, month, n - preceding + 1).

(** ** [tzinfo], [datetime], [timedelta]

    A date is held as its proleptic Gregorian ordinal ([date.toordinal()]),
    the quantity on which [datetime.__add__] and [weekday()] are defined;
    [ymd2ord] and [ord2ymd] convert from and to year, month and day. *)

Record tzinfo : Type := mk_tzinfo {
  tz_zone : string;       (* zone identifier of the pytz tzinfo instance *)
  tz_utcoffset : Z        (* its UTC offset, in seconds *)
}.

Record datetime : Type := mk_datetime {
  ordinal : Z;
  hour : Z;
  minute : Z;
  second : Z;
  microsecond : Z;
  dt_tzinfo : option tzinfo
}.

Record timedelta : Type := mk_timedelta {
  td_days : Z;
  td_seconds : Z;
  td_microseconds : Z
}.

Definition year (d : datetime) : Z := (ord2ymd (ordinal d)).1.1.
Definition month (d : datetime) : Z := (ord2ymd (ordinal d)).1.2.
Definition day (d : datetime) : Z := (ord2ymd (ordinal d)).2.

(** [timedelta.__new__] on integer arguments: carries are propagated upwards
    and the day count is limited to nine decimal digits. *)
Definition normalize (d s us : Z) : result timedelta :=
  let s1 := s + us / 1000000 in
  let d1 := d + s1 / 86400 in
  if Z.abs d1 <=? 999999999
  then Ok (mk_timedelta d1 (s1 mod 86400) (us mod 1000000))
  else Raise OverflowError.

Definition timedelta_of (days hours minutes : Z) : result timedelta :=
  normalize days (minutes * 60 + hours * 3600) 0.

(** [datetime.__add__]. *)
Definition add (dt : datetime) (td : timedelta) : result datetime :=
  delta ← normalize (ordinal dt + td_days td)
            (hour dt * 3600 + minute dt * 60 + second dt + td_seconds td)
            (microsecond dt + td_microseconds td);
  if (0 <? td_days delta) && (td_days delta <=? MAXORDINAL) then
    let rem := td_seconds delta mod 3600 in
    Ok (mk_datetime (td_days delta) (td_seconds delta / 3600)
          (rem / 60) (rem mod 60) (td_microseconds delta) (dt_tzinfo dt))
  else Raise OverflowError.

(** The values a C [int] holds: [replace] converts its arguments to C
    [int] before it looks at their ranges. *)
Definition c_int (n : Z) : bool := (- 2 ^ 31 <=? n) && (n <? 2 ^ 31).

(** [dt.replace(hour=h, minute=m, second=s, microsecond=us)], where the last
    two keywords are optional; the date and the tzinfo are kept.  An
    argument that does not fit a C [int] is an [OverflowError]; after that
    the new time of day is validated as a whole, and a field out of range is
    a [ValueError]. *)
Definition replace (dt : datetime) (h m : Z) (s us : option Z) : result datetime :=
  if c_int h && c_int m && c_int (default 0 s) && c_int (default 0 us) then
    let s' := default (second dt) s in
    let us' := default (microsecond dt) us in
    if (0 <=? h) && (h <? 24) && (0 <=? m) && (m <? 60)
       && (0 <=? s') && (s' <? 60) && (0 <=? us') && (us' <? 1000000)
    then Ok (mk_datetime (ordinal dt) h m s' us' (dt_tzinfo dt))
    else Raise ValueError
  else Raise OverflowError.

(** [dt.weekday()]: Monday is 0, Sunday is 6. *)
Definition weekday (dt : datetime) : Z := (ordinal dt + 6) mod 7.

(** Microseconds on the wall clock since the start of ordinal 0. *)
Definition wall_us (dt : datetime) : Z :=
  ((ordinal dt * 86400
    + hour dt * 3600 + minute dt * 60 + second dt) * 1000000)
  + microsecond dt.

(** The same on the UTC scale, for an aware value. *)
Definition utc_us (dt : datetime) (tz : tzinfo) : Z :=
  wall_us dt - tz_utcoffset tz * 1000000.

(** [a > b].  Two naive values compare on the wall clock, two aware values
    on the UTC scale, and a mixed comparison is a [TypeError]. *)
Definition gt (a b : datetime) : result bool :=
  match dt_tzinfo a, dt_tzinfo b with
  | None, None => Ok (wall_us b <? wall_us a)
  | Some ta, Some tb => Ok (utc_us b tb <? utc_us a ta)
  | _, _ => Raise TypeError
  end.

(** ** [datetime.strptime(s, '%Y-%m-%d').date()]

    The format compiles to the regular expression
    [(\d\d\d\d)-(1[0-2]|0[1-9]|[1-9])-(3[01]|[12]\d|0[1-9]|[1-9]| [1-9])],
    which must consume the whole text.  No alternative contains a dash, so
    the text matches exactly when cutting it at the dashes gives three
    fields, each matching its group. *)

Definition in_range (lo hi c : ascii) : bool :=
  ((N_of_ascii lo <=? N_of_ascii c) && (N_of_ascii c <=? N_of_ascii hi))%N.

Definition match_Y (f : string) : option Z :=
  match list_ascii_of_string f with
  | [a; b; c; d] =>
      if forallb is_digit [a; b; c; d] then digits 0 false [a; b; c; d]
      else None
  | _ => None
  end.

Definition match_m (f : string) : option Z :=
  match list_ascii_of_string f with
  | [a; b] =>
      if (Ascii.eqb a "1" && in_range "0" "2" b)
         || (Ascii.eqb a "0" && in_range "1" "9" b)
      then digits 0 false [a; b] else None
  | [a] => if in_range "1" "9" a then digits 0 false [a] else None
  | _ => None
  end.

Definition match_d (f : string) : option Z :=
  match list_ascii_of_string f with
  | [a; b] =>
      if (Ascii.eqb a "3" && in_range "0" "1" b)
         || (in_range "1" "2" a && is_digit b)
         || (Ascii.eqb a "0" && in_range "1" "9" b)
      then digits 0 false [a; b]
      else if Ascii.eqb a " " && in_range "1" "9" b then digits 0 false [b]
      else None
  | [a] => if in_range "1" "9" a then digits 0 false [a] else None
  | _ => None
  end.

(** The date of the parsed text, as a naive [datetime] at midnight
    ([datetime.combine(d, datetime.min.time())]). *)
Definition strptime_date (s : string) : result datetime :=
  match split "-" s with
  | [fy; fm; fd] =>
      match match_Y fy, match_m fm, match_d fd with
      | Some y, Some m, Some d =>
          if (MINYEAR <=? y) && (y <=? MAXYEAR)
             && (1 <=? d) && (d <=? days_in_month y m)
          then Ok (mk_datetime (ymd2ord y m d) 0 0 0 0 None)
          else Raise ValueError
      | _, _, _ => Raise ValueError
      end
  | _ => Raise ValueError
  end.

(** ** [pytz] zones

    A zone knows its identifier, the UTC offset (seconds) that [localize]
    attaches to a wall-clock time, and whether it is a fixed-offset zone
    ([StaticTzInfo]) or a zone with transitions ([DstTzInfo]).  [localize]
    refuses a value that already carries a tzinfo and does not move the wall
    clock.  In a zone with transitions it first looks up the zone's state one
    day before and one day after the value, [dt + timedelta(days=-1)] and
    [dt + timedelta(days=1)], which is an [OverflowError] on 0001-01-01 and
    on 9999-12-31. *)

Record timezone : Type := mk_timezone {
  zone : string;
  utcoffset_at : datetime -> Z;
  zone_fixed : bool
}.

Definition attach (tz : timezone) (dt : datetime) : datetime :=
  mk_datetime (ordinal dt) (hour dt) (minute dt) (second dt)
    (microsecond dt) (Some (mk_tzinfo (zone tz) (utcoffset_at tz dt))).

Definition localize (tz : timezone) (dt : datetime) : result datetime :=
  match dt_tzinfo dt with
  | Some _ => Raise ValueError
  | None =>
      if zone_fixed tz then Ok (attach tz dt)
      else
        _ ← add dt (mk_timedelta (-1) 0 0);
        _ ← add dt (mk_timedelta 1 0 0);
        Ok (attach tz dt)
  end.

(** Modelled from the spec: the zone table of [pytz] is not part of the
    repository.  The specification gives IST, the zone [Asia/Kolkata], as
    the offset UTC+5:30, which is the zone's offset on the dates of the
    examples; the zone has transitions in the past, so it is not a
    fixed-offset zone of [pytz].  The theorems hold for every zone, whatever
    offsets it gives. *)
Definition Asia_Kolkata : timezone :=
  mk_timezone "Asia/Kolkata" (fun _ => 5 * 3600 + 30 * 60) false.

Definition IST : tzinfo := mk_tzinfo "Asia/Kolkata" 19800.

End Py.

(* ===================================================================== *)
(** * The [icalendar] component tree                                      *)
(* ===================================================================== *)

Module ICal.
Import Py.

(** The seven weekday codes, the vocabulary of [--byday] ([choices] of the
    argument parser) and of the recurrence rule. *)
Inductive WeekdayCode : Type := MO | TU | WE | TH | FR | SA | SU.

(** Property values, after the encoding [Component.add] applies. *)
Inductive value : Type :=
  | vText (s : string)
  | vDDDTypes (dt : datetime)
  | vUTCOffset (td : timedelta)
  | vRecur (freq : string) (byday : list WeekdayCode).

(** A component: its name, its properties in insertion order (keys are
    stored in upper case, a key holds the values added under it), and its
    ordered subcomponents. *)
#[warnings="-register-all"] Inductive Component : Type := mk_Component {
  name : string;
  properties : list (string * list value);
  subcomponents : list Component
}.

Definition upper_ascii (c : ascii) : ascii :=
  let n := N_of_ascii c in
  if ((97 <=? n) && (n <=? 122))%N then ascii_of_N (n - 32) else c.

Fixpoint upper (s : string) : string :=
  match s with
  | EmptyString => EmptyString
  | String c s' => String (upper_ascii c) (upper s')
  end.

(** [self[key] = ...] of [Component.add]: a key already present collects the
    new value after the old ones, a new key goes last. *)
Fixpoint set_property (key : string) (v : value)
    (props : list (string * list value)) : list (string * list value) :=
  match props with
  | [] => [(key, [v])]
  | (k, vs) :: rest =>
      if String.eqb k key then (k, (vs ++ [v])%list) :: rest
      else (k, vs) :: set_property key v rest
  end.

Definition add (key : string) (v : value) (c : Component) : Component :=
  mk_Component (name c) (set_property (upper key) v (properties c))
    (subcomponents c).

Definition add_component (sub : Component) (c : Component) : Component :=
  mk_Component (name c) (properties c) (subcomponents c ++ [sub])%list.

(** [component[key]] (case-insensitive). *)
Definition get (key : string) (c : Component) : option (list value) :=
  snd <$> List.find (fun kv => String.eqb (fst kv) (upper key)) (properties c).

(** The subcomponents of a given kind, in order ([walk] one level deep). *)
Definition subcomponents_named (n : string) (c : Component) : list Component :=
  List.filter (fun s => String.eqb (name s) n) (subcomponents c).

Definition Calendar : Component := mk_Component "VCALENDAR" [] [].
Definition Event : Component := mk_Component "VEVENT" [] [].
Definition Timezone : Component := mk_Component "VTIMEZONE" [] [].
Definition TimezoneStandard : Component := mk_Component "STANDARD" [] [].

End ICal.

(* ===================================================================== *)
(** * [generate-ics.py]                                                   *)
(* ===================================================================== *)

Module GenerateIcs.
Import Py ICal.

(** The parsed command line ([parse_args]). *)
Record Args : Type := mk_Args {
  arg_name : string;
  arg_byday : list WeekdayCode;
  arg_time : string;
  arg_start_date : option string;
  arg_duration : Z;
  arg_timezone : string;
  arg_output : string
}.

(** The files of the working directory: path to content. *)
Abbreviation filesystem := (gmap string (list Byte.byte)).

(** [codes = {'MO':0, ..., 'SU':6}]. *)
Definition codes (w : WeekdayCode) : Z :=
  match w with
  | MO => 0 | TU => 1 | WE => 2 | TH => 3 | FR => 4 | SA => 5 | SU => 6
  end.

(** [targets = {codes[w] for w in weekdays}]. *)
Definition targets_of (weekdays : list WeekdayCode) : gset Z :=
  list_to_set (codes <$> weekdays).

(** The [for delta in range(0, 8)] loop of [compute_start], on the deltas
    still to visit: [Some cand] when the loop returns [cand], [None] when it
    runs to its end. *)
Fixpoint scan (now : datetime) (targets : gset Z) (deltas : list Z)
    : result (option datetime) :=
  match deltas with
  | [] => Ok None
  | delta :: rest =>
      td ← timedelta_of delta 0 0;
      cand ← Py.add now td;
      if bool_decide (weekday cand ∈ targets) then
        later ← gt cand now;
        if later : bool then Ok (Some cand) else scan now targets rest
      else scan now targets rest
  end.

(** [compute_start(dt_str, time_str, weekdays, tz)].  [clock] is the value
    that [datetime.now(tz)] returns when the function runs. *)
Definition compute_start (clock : datetime) (dt_str : option string)
    (time_str : string) (weekdays : list WeekdayCode) (tz : timezone)
    : result datetime :=
  fields ← mapM int (split ":" time_str);
  match fields with
  | [hh; mm] =>
      match dt_str with
      | Some (String c ds) =>
          d ← strptime_date (String c ds);
          naive ← replace d hh mm None None;
          localize tz naive
      | _ =>
          now ← replace clock hh mm (Some 0) (Some 0);
          let targets := targets_of weekdays in
          found ← scan now targets (seqZ 0 8);
          match found with
          | Some cand => Ok cand
          | None => td ← timedelta_of 7 0 0; Py.add now td
          end
      end
  | _ => Raise ValueError
  end.

(** The calendar a missing file gives rise to. *)
Definition new_calendar (tzid : string) : result Component :=
  let cal := Calendar in
  let cal := ICal.add "prodid" (vText "-//PB Calendar//") cal in
  let cal := ICal.add "version" (vText "2.0") cal in
  let cal := ICal.add "X-WR-TIMEZONE" (vText tzid) cal in
  let tz_comp := Timezone in
  let tz_comp := ICal.add "tzid" (vText tzid) tz_comp in
  let std := TimezoneStandard in
  let std := ICal.add "dtstart"
               (vDDDTypes (mk_datetime (ymd2ord 1970 1 1) 0 0 0 0 None)) std in
  let std := ICal.add "tzname" (vText tzid) std in
  off ← timedelta_of 0 5 30;
  let std := ICal.add "tzoffsetfrom" (vUTCOffset off) std in
  off' ← timedelta_of 0 5 30;
  let std := ICal.add "tzoffsetto" (vUTCOffset off') std in
  let tz_comp := add_component std tz_comp in
  Ok (add_component tz_comp cal).

(** What can go wrong outside the program: reading an existing file
    ([open(path,'rb')] and [f.read()]), opening a file for writing, writing
    and closing it, and printing the last line.  A fault is the exception
    raised; a fault in writing also tells what the file is left with. *)
Record OS : Type := mk_OS {
  read_fault : string -> option exception;
  open_fault : string -> option exception;
  write_fault : string -> list Byte.byte
                -> option (exception * list Byte.byte);
  print_fault : option exception
}.

(** An operating system on which nothing fails. *)
Definition no_faults : OS :=
  mk_OS (fun _ => None) (fun _ => None) (fun _ _ => None) None.

Section Program.

(** What the libraries contribute: the zone table of [pytz] and the parser
    and serializer of [icalendar]; and the operating system. *)
Variable pytz_timezone : string -> result timezone.
Variable from_ical : list Byte.byte -> result Component.
Variable to_ical : Component -> result (list Byte.byte).
Variable os : OS.

(** [load_or_create_calendar(path, tzid)]: reads, never writes. *)
Definition load_or_create_calendar (fs : filesystem) (path tzid : string)
    : result Component :=
  match fs !! path with
  | Some content =>
      match read_fault os path with
      | Some e => Raise e
      | None => from_ical content
      end
  | None => new_calendar tzid
  end.

(** The document [main] hands to the serializer: everything up to and
    including [cal.add_component(ev)]. *)
Definition build (clock : datetime) (args : Args) (fs : filesystem)
    : result Component :=
  tz ← pytz_timezone (arg_timezone args);
  cal ← load_or_create_calendar fs (arg_output args) (arg_timezone args);
  dtstart ← compute_start clock (arg_start_date args) (arg_time args)
              (arg_byday args) tz;
  td ← timedelta_of 0 0 (arg_duration args);
  dtend ← Py.add dtstart td;
  let ev := Event in
  let ev := ICal.add "summary" (vText (arg_name args)) ev in
  let ev := ICal.add "dtstart" (vDDDTypes dtstart) ev in
  let ev := ICal.add "dtend" (vDDDTypes dtend) ev in
  let ev := ICal.add "rrule" (vRecur "weekly" (arg_byday args)) ev in
  Ok (add_component ev cal).

(** [open(path, 'wb')] creates the file or cuts it to length zero. *)
Definition open_wb (path : string) (fs : filesystem) : filesystem :=
  <[path := []]> fs.

(** [f.write(data)] on the file just opened. *)
Definition write (path : string) (data : list Byte.byte) (fs : filesystem)
    : filesystem :=
  <[path := data]> fs.

(** [main()]: the files after the run, and how the run ended.  In
    [with open(args.output,'wb') as f: f.write(cal.to_ical())] the file is
    opened before [cal.to_ical()] is evaluated; the line printed at the end
    comes after the file is written and closed. *)
Definition main (clock : datetime) (args : Args) (fs : filesystem)
    : filesystem * result unit :=
  match build clock args fs with
  | Raise e => (fs, Raise e)
  | Ok cal =>
      match open_fault os (arg_output args) with
      | Some e => (fs, Raise e)
      | None =>
          let fs := open_wb (arg_output args) fs in
          match to_ical cal with
          | Raise e => (fs, Raise e)
          | Ok data =>
              match write_fault os (arg_output args) data with
              | Some (e, remains) =>
                  (write (arg_output args) remains fs, Raise e)
              | None =>
                  let fs := write (arg_output args) data fs in
                  match print_fault os with
                  | Some e => (fs, Raise e)
                  | None => (fs, Ok tt)
                  end
              end
          end
      end
  end.

End Program.

End GenerateIcs.

(* ===================================================================== *)
(** * [tests/test-ics.py]                                                 *)
(* ===================================================================== *)

Module TestIcs.
Import Py.

(** Step 3 of [create_pb_hustle_ics]: the next Friday at 18:00, from the
    value [now] of [datetime.now(ist)]. *)
Definition first_friday (now : datetime) : result datetime :=
  let days_ahead := 4 - weekday now in
  let days_ahead := if days_ahead <=? 0 then days_ahead + 7 else days_ahead in
  td ← timedelta_of days_ahead 0 0;
  moved ← Py.add now td;
  replace moved 18 0 (Some 0) (Some 0).

Section Program.
Import ICal.

Variable pytz_timezone : string -> result timezone.
Variable to_ical : Component -> result (list Byte.byte).
Variable os : GenerateIcs.OS.

(** Steps 1 to 4 of [create_pb_hustle_ics]: the document handed to the
    serializer.  [clock] is the value of [datetime.now(ist)]. *)
Definition document (clock : datetime) : result Component :=
  let cal := Calendar in
  let cal := ICal.add "prodid" (vText "-//PB Calendar//") cal in
  let cal := ICal.add "version" (vText "2.0") cal in
  let cal := ICal.add "X-WR-TIMEZONE" (vText "Asia/Kolkata") cal in
  let tz := Timezone in
  let tz := ICal.add "tzid" (vText "Asia/Kolkata") tz in
  let std := TimezoneStandard in
  let std := ICal.add "dtstart"
               (vDDDTypes (mk_datetime (ymd2ord 1970 1 1) 0 0 0 0 None)) std in
  let std := ICal.add "tzname" (vText "IST") std in
  off ← timedelta_of 0 5 30;
  let std := ICal.add "tzoffsetfrom" (vUTCOffset off) std in
  off' ← timedelta_of 0 5 30;
  let std := ICal.add "tzoffsetto" (vUTCOffset off') std in
  let tz := add_component std tz in
  let cal := add_component tz cal in
  ist ← pytz_timezone "Asia/Kolkata";
  first ← first_friday clock;
  let event := Event in
  let event := ICal.add "summary" (vText "PB Hustle") event in
  let event := ICal.add "dtstart" (vDDDTypes first) event in
  hour ← timedelta_of 0 1 0;
  dtend ← Py.add first hour;
  let event := ICal.add "dtend" (vDDDTypes dtend) event in
  let event := ICal.add "rrule" (vRecur "weekly" [FR]) event in
  Ok (add_component event cal).

(** [create_pb_hustle_ics(filename)]: the files after the call and how it
    ended.  Nothing is read; the file is opened for writing before the
    document is serialized, and the last line is printed after the file is
    written and closed. *)
Definition create_pb_hustle_ics (clock : datetime) (filename : string)
    (fs : GenerateIcs.filesystem) : GenerateIcs.filesystem * result unit :=
  match document clock with
  | Raise e => (fs, Raise e)
  | Ok cal =>
      match GenerateIcs.open_fault os filename with
      | Some e => (fs, Raise e)
      | None =>
          let fs := GenerateIcs.open_wb filename fs in
          match to_ical cal with
          | Raise e => (fs, Raise e)
          | Ok data =>
              match GenerateIcs.write_fault os filename data with
              | Some (e, remains) =>
                  (GenerateIcs.write filename remains fs, Raise e)
              | None =>
                  let fs := GenerateIcs.write filename data fs in
                  match GenerateIcs.print_fault os with
                  | Some e => (fs, Raise e)
                  | None => (fs, Ok tt)
                  end
              end
          end
      end
  end.

End Program.

End TestIcs.

(* ===================================================================== *)
(** * Vocabulary of the statements                                        *)
(* ===================================================================== *)

Module Spec.
Import Py ICal GenerateIcs.

(** The invariants of a Python [datetime] object. *)
Definition valid_time (dt : datetime) : Prop :=
  0 <= hour dt < 24 /\ 0 <= minute dt < 60 /\ 0 <= second dt < 60
  /\ 0 <= microsecond dt < 1000000.

Definition valid_date (dt : datetime) : Prop :=
  1 <= ordinal dt <= MAXORDINAL.

Definition valid (dt : datetime) : Prop := valid_date dt /\ valid_time dt.

(** The same wall-clock time [k] days later. *)
Definition plus_days (dt : datetime) (k : Z) : datetime :=
  mk_datetime (ordinal dt + k) (hour dt) (minute dt) (second dt)
    (microsecond dt) (dt_tzinfo dt).

(** The date of [dt] at [h]:[m]:00. *)
Definition at_time (dt : datetime) (h m : Z) : datetime :=
  mk_datetime (ordinal dt) h m 0 0 (dt_tzinfo dt).

(** The weekday of the day with a given ordinal. *)
Definition weekday_of_ordinal (o : Z) : Z := (o + 6) mod 7.

(** [qualifies now T k]: the loop of [compute_start] returns at offset [k]. *)
Definition qualifies (now : datetime) (T : gset Z) (k : Z) : Prop :=
  weekday_of_ordinal (ordinal now + k) ∈ T /\ 0 < k.

(** The ordinals of the dates [datetime] can hold. *)
Definition representable (o : Z) : Prop := 1 <= o <= MAXORDINAL.

(** [time_str] is a valid time of day, [hh]:[mm]. *)
Definition time_of_day (time_str : string) (hh mm : Z) : Prop :=
  mapM int (split ":" time_str) = Ok [hh; mm]
  /\ 0 <= hh < 24 /\ 0 <= mm < 60.

(** The clock shows a date that exists and whose date one week later
    exists too (any day up to 9999-12-24). *)
Definition week_ahead (clock : datetime) : Prop :=
  1 <= ordinal clock /\ ordinal clock + 7 <= MAXORDINAL.

(** [--start-date] absent or empty: the test [if dt_str:] fails. *)
Definition no_date (dt_str : option string) : Prop :=
  dt_str = None \/ dt_str = Some "".

(** The first occurrence as the specification words it.  The occurrences
    are the instants at the requested time of day, today's included:
    [plus_days (at_time clock hh mm) k] for an integer [k].  [r] is the
    earliest of them that is strictly after the clock reading and whose
    weekday is in [T]. *)
Definition earliest_occurrence (clock : datetime) (hh mm : Z) (T : gset Z)
    (r : datetime) : Prop :=
  (exists k, r = plus_days (at_time clock hh mm) k)
  /\ weekday r ∈ T /\ gt r clock = Ok true
  /\ forall k,
       weekday (plus_days (at_time clock hh mm) k) ∈ T ->
       gt (plus_days (at_time clock hh mm) k) clock = Ok true ->
       gt r (plus_days (at_time clock hh mm) k) = Ok false.

(** A calendar date written as [--start-date] documents it, YYYY-MM-DD
    with leading zeros. *)
Definition digit_char (n : Z) : ascii := ascii_of_N (Z.to_N (48 + n)).

Definition two_digits (n : Z) : string :=
  String (digit_char (n / 10)) (String (digit_char (n mod 10)) EmptyString).

Definition four_digits (n : Z) : string :=
  String (digit_char (n / 1000))
    (String (digit_char (n / 100 mod 10)) (two_digits (n mod 100))).

Definition iso_date (y m d : Z) : string :=
  String.append (four_digits y)
    (String "-" (String.append (two_digits m) (String "-" (two_digits d)))).

(** Year, month and day of a date of the proleptic Gregorian calendar
    that [datetime] can hold. *)
Definition valid_ymd (y m d : Z) : Prop :=
  MINYEAR <= y <= MAXYEAR /\ 1 <= m <= 12 /\ 1 <= d <= days_in_month y m.

(** The last step of [ord2ymd]: month and day from the day of the year
    [r], counted from 0, in a leap year or not; and the two quantities
    [ymd2ord] adds up, with the leap year as a parameter. *)
Definition month_day (leap : bool) (r : Z) : Z * Z :=
  let month := Z.shiftr (r + 50) 5 in
  let preceding :=
    nth (Z.to_nat (month - 1)) DAYS_BEFORE_MONTH 0
    + (if (2 <? month) && leap then 1 else 0) in
  if r <? preceding then
    let month' := month - 1 in
    let preceding' :=
      preceding - (nth (Z.to_nat (month' - 1)) DAYS_IN_MONTH 0
                   + (if (month' =? 2) && leap then 1 else 0)) in
    (month', r - preceding' + 1)
  else (month, r - preceding + 1).

Definition day_of_year (leap : bool) (m d : Z) : Z :=
  nth (Z.to_nat (m - 1)) DAYS_BEFORE_MONTH 0
  + (if (2 <? m) && leap then 1 else 0) + d - 1.

Definition month_length (leap : bool) (m : Z) : Z :=
  if (m =? 2) && leap then 29 else nth (Z.to_nat (m - 1)) DAYS_IN_MONTH 0.

(** Clock readings used by the examples of the specification. *)
Definition wed_2025_06_04_10h : datetime :=
  mk_datetime (ymd2ord 2025 6 4) 10 0 0 0 (Some IST).
Definition fri_2025_06_06_10h : datetime :=
  mk_datetime (ymd2ord 2025 6 6) 10 0 0 0 (Some IST).
Definition fri_2025_06_06_18h : datetime :=
  mk_datetime (ymd2ord 2025 6 6) 18 0 0 0 (Some IST).
Definition fri_2025_06_13_18h : datetime :=
  mk_datetime (ymd2ord 2025 6 13) 18 0 0 0 (Some IST).

(** The length of a [timedelta], in microseconds. *)
Definition total_us (td : timedelta) : Z :=
  (td_days td * 86400 + td_seconds td) * 1000000 + td_microseconds td.

(** The wall-clock counts of the values [datetime] can hold: from
    0001-01-01 00:00:00 to 9999-12-31 23:59:59.999999. *)
Definition in_datetime_range (us : Z) : Prop :=
  86400 * 1000000 <= us < (MAXORDINAL + 1) * 86400 * 1000000.

(** The event [main] composes from a start, an end and the arguments. *)
Definition event_of (args : Args) (dtstart dtend : datetime) : Component :=
  mk_Component "VEVENT"
    [("SUMMARY", [vText (arg_name args)]);
     ("DTSTART", [vDDDTypes dtstart]);
     ("DTEND", [vDDDTypes dtend]);
     ("RRULE", [vRecur "weekly" (arg_byday args)])]
    [].

(** The offset, from 1 to 7 days, from the day of [clock] to the next day
    of weekday [w] (Monday 0 to Sunday 6) strictly after it. *)
Definition days_until (clock : datetime) (w : Z) : Z :=
  (w - weekday clock - 1) mod 7 + 1.

(** The arguments under which [generate-ics.py] does what
    [create_pb_hustle_ics] does. *)
Definition args_demo (filename : string) : Args :=
  mk_Args "PB Hustle" [FR] "18:00" None 60 "Asia/Kolkata" filename.

(** The VTIMEZONE component both programs embed, up to the display name of
    its STANDARD rule. *)
Definition timezone_component (tzid tzname : string) : Component :=
  mk_Component "VTIMEZONE" [("TZID", [vText tzid])]
    [mk_Component "STANDARD"
       [("DTSTART", [vDDDTypes (mk_datetime (ymd2ord 1970 1 1) 0 0 0 0 None)]);
        ("TZNAME", [vText tzname]);
        ("TZOFFSETFROM", [vUTCOffset (mk_timedelta 0 19800 0)]);
        ("TZOFFSETTO", [vUTCOffset (mk_timedelta 0 19800 0)])]
       []].

(** The calendar properties both programs set on a new document. *)
Definition calendar_properties (tzid : string) : list (string * list value) :=
  [("PRODID", [vText "-//PB Calendar//"]);
   ("VERSION", [vText "2.0"]);
   ("X-WR-TIMEZONE", [vText tzid])].

(** Two weekday lists name the same days. *)
Definition same_days (ws ws' : list WeekdayCode) : Prop :=
  forall w, w ∈ ws <-> w ∈ ws'.

(** ** A concrete setting for the examples

    One zone is known; the parser and the serializer are those of the
    example format below, or a serializer that always fails. *)
Definition one_zone (z : string) : result timezone :=
  if String.eqb z "Asia/Kolkata" then Ok Asia_Kolkata
  else Raise UnknownTimeZoneError.

Definition serializer_failing (_ : Component) : result (list Byte.byte) :=
  Raise ValueError.

Definition args_hustle : Args :=
  mk_Args "PB Hustle" [FR] "18:00" (Some "2025-06-06") 60 "Asia/Kolkata"
    "pb_calendar.ics".

Definition args_review : Args :=
  mk_Args "Review" [MO; WE] "09:30" None 45 "Asia/Kolkata" "pb_calendar.ics".

(** The arguments of [args_hustle] with a duration of some 2091 years
    back. *)
Definition args_before_year_one : Args :=
  mk_Args "PB Hustle" [FR] "18:00" (Some "2025-06-06") (-1100000000)
    "Asia/Kolkata" "pb_calendar.ics".

(** The fresh document for [Asia/Kolkata]. *)
Definition doc_fresh : Component :=
  match new_calendar "Asia/Kolkata" with
  | Ok cal => cal
  | Raise _ => Calendar
  end.

(** ** An example format

    A serializer and a parser that stand in for [icalendar] in the
    examples.  The serializer writes a component as content lines: BEGIN
    with the name, one line KEY:value for every value of every property,
    the subcomponents, END with the name.  The parser builds the tree back
    from the lines; it does not type the values, every value it reads is a
    text, so the document it returns is not the document that was
    serialized, but it serializes to the same lines. *)

Definition newline : ascii := ascii_of_N 10.

Definition code_text (w : WeekdayCode) : string :=
  match w with
  | MO => "MO" | TU => "TU" | WE => "WE" | TH => "TH" | FR => "FR"
  | SA => "SA" | SU => "SU"
  end.

Fixpoint join (sep : string) (l : list string) : string :=
  match l with
  | [] => EmptyString
  | [x] => x
  | x :: rest => String.append x (String.append sep (join sep rest))
  end.

Definition value_text (v : value) : string :=
  match v with
  | vText t => t
  | vDDDTypes dt =>
      let '(y, m, d) := ord2ymd (ordinal dt) in
      join "" [four_digits y; two_digits m; two_digits d; "T";
               two_digits (hour dt); two_digits (minute dt);
               two_digits (second dt)]
  | vUTCOffset td =>
      join "" ["+"; two_digits (td_seconds td / 3600);
               two_digits (td_seconds td mod 3600 / 60)]
  | vRecur freq byday =>
      join "" ["FREQ="; upper freq; ";BYDAY="; join "," (code_text <$> byday)]
  end.

Definition property_lines (kv : string * list value) : list string :=
  (fun v => join ":" [fst kv; value_text v]) <$> snd kv.

Fixpoint component_lines (c : Component) : list string :=
  match c with
  | mk_Component n props subs =>
      (join ":" ["BEGIN"; n] :: List.flat_map property_lines props)
      ++ List.flat_map component_lines subs ++ [join ":" ["END"; n]]
  end%list.

Definition example_to_ical (c : Component) : result (list Byte.byte) :=
  Ok (list_byte_of_string
        (join (String newline EmptyString) (component_lines c))).

(** A content line cut at its first colon. *)
Fixpoint cut_line (s : string) : string * string :=
  match s with
  | EmptyString => (EmptyString, EmptyString)
  | String c s' =>
      if Ascii.eqb c ":" then (EmptyString, s')
      else let '(k, v) := cut_line s' in (String c k, v)
  end.

(** The lines still to read and the components that are open, innermost
    first. *)
Fixpoint parse_lines (lines : list string) (open : list Component)
    : result Component :=
  match lines with
  | [] => Raise ValueError
  | line :: rest =>
      let '(key, text) := cut_line line in
      if String.eqb key "BEGIN" then
        parse_lines rest (mk_Component text [] [] :: open)
      else if String.eqb key "END" then
        match open, rest with
        | [c], [] => Ok c
        | c :: parent :: outer, _ =>
            parse_lines rest (add_component c parent :: outer)
        | _, _ => Raise ValueError
        end
      else
        match open with
        | c :: outer => parse_lines rest (ICal.add key (vText text) c :: outer)
        | [] => Raise ValueError
        end
  end.

Definition example_from_ical (data : list Byte.byte) : result Component :=
  parse_lines (split newline (string_of_list_byte data)) [].

(** Two components that the example serializer does not tell apart. *)
Definition same_lines (a b : Component) : Prop :=
  component_lines a = component_lines b.

(** The document the first run ([args_hustle], empty directory) builds,
    its serialization, and the document read back from it. *)
Definition doc_hustle : Component :=
  match build one_zone example_from_ical no_faults wed_2025_06_04_10h
          args_hustle ∅
  with
  | Ok cal => cal
  | Raise _ => Calendar
  end.

Definition data_hustle : list Byte.byte :=
  match example_to_ical doc_hustle with
  | Ok data => data
  | Raise _ => []
  end.

Definition doc_hustle_read : Component :=
  match example_from_ical data_hustle with
  | Ok cal => cal
  | Raise _ => Calendar
  end.

(** The directory after the first run, and after a second run two days
    later with [args_review]. *)
Definition fs_after_hustle : filesystem :=
  fst (main one_zone example_from_ical example_to_ical no_faults
         wed_2025_06_04_10h args_hustle ∅).

Definition fs_after_review : filesystem :=
  fst (main one_zone example_from_ical example_to_ical no_faults
         fri_2025_06_06_10h args_review fs_after_hustle).

(** The directory after the first run is repeated as it was. *)
Definition fs_after_repeat : filesystem :=
  fst (main one_zone example_from_ical example_to_ical no_faults
         wed_2025_06_04_10h args_hustle fs_after_hustle).

(** An operating system whose console cannot show the last line. *)
Definition console_fault : OS :=
  mk_OS (fun _ => None) (fun _ => None) (fun _ _ => None)
    (Some UnicodeEncodeError).

End Spec.

(* ===================================================================== *)
(** * Lemmas on the runtime                                               *)
(* ===================================================================== *)

Section Runtime.
Import Py Spec.

(** Already normalised arguments pass through [normalize]. *)
Lemma normalize_small (d s us : Z) :
  0 <= s < 86400 -> 0 <= us < 1000000 ->
  normalize d s us =
    if Z.abs d <=? 999999999 then Ok (mk_timedelta d s us)
    else Raise OverflowError.
Proof.
  intros Hs Hus. unfold normalize.
  rewrite (Z.div_small us), (Z.mod_small us) by lia.
  rewrite Z.add_0_r, (Z.div_small s), (Z.mod_small s) by lia.
  rewrite Z.add_0_r. reflexivity.
Qed.

Lemma timedelta_of_days (k : Z) :
  Z.abs k <= 999999999 -> timedelta_of k 0 0 = Ok (mk_timedelta k 0 0).
Proof.
  intros Hk. change (timedelta_of k 0 0) with (normalize k 0 0).
  rewrite normalize_small by lia.
  destruct (Z.leb_spec (Z.abs k) 999999999); [reflexivity | lia].
Qed.

Lemma time_of_day_bounds (dt : datetime) :
  valid_time dt ->
  0 <= hour dt * 3600 + minute dt * 60 + second dt < 86400.
Proof. unfold valid_time. lia. Qed.

(** Adding whole days moves the ordinal and nothing else; leaving the
    range [1, MAXORDINAL] is an [OverflowError]. *)
Lemma add_days (dt : datetime) (k : Z) :
  valid_time dt ->
  add dt (mk_timedelta k 0 0) =
    if (0 <? ordinal dt + k) && (ordinal dt + k <=? MAXORDINAL)
    then Ok (plus_days dt k) else Raise OverflowError.
Proof.
  intros Hv. pose proof (time_of_day_bounds dt Hv) as Hs.
  destruct Hv as (Hh & Hm & Hsec & Hus).
  unfold add. cbn [td_days td_seconds td_microseconds].
  rewrite !Z.add_0_r, normalize_small by lia.
  destruct (Z.leb_spec (Z.abs (ordinal dt + k)) 999999999) as [Hsmall|Hbig].
  - cbn [mbind result_bind td_days td_seconds td_microseconds].
    destruct ((0 <? ordinal dt + k) && (ordinal dt + k <=? MAXORDINAL));
      [|reflexivity].
    unfold plus_days. f_equal. f_equal; Z.div_mod_to_equations; lia.
  - cbn [mbind result_bind].
    destruct (Z.ltb_spec 0 (ordinal dt + k)); [|reflexivity].
    destruct (Z.leb_spec (ordinal dt + k) MAXORDINAL); [|reflexivity].
    unfold MAXORDINAL in *. lia.
Qed.

(** A value compared with itself [k] days later: the tzinfo is shared, so
    only the sign of [k] matters. *)
Lemma gt_plus_days (dt : datetime) (k : Z) :
  gt (plus_days dt k) dt = Ok (0 <? k).
Proof.
  unfold gt, plus_days, utc_us, wall_us. cbn [dt_tzinfo ordinal hour minute
    second microsecond].
  destruct (dt_tzinfo dt) as [tz|]; f_equal;
    (destruct (Z.ltb_spec 0 k); [apply Z.ltb_lt | apply Z.ltb_ge]; lia).
Qed.

Lemma c_int_small (n : Z) : - 2 ^ 31 <= n < 2 ^ 31 -> c_int n = true.
Proof.
  intros H. unfold c_int. rewrite andb_true_iff, Z.leb_le, Z.ltb_lt. exact H.
Qed.

Lemma replace_hm00 (dt : datetime) (h m : Z) :
  0 <= h < 24 -> 0 <= m < 60 ->
  replace dt h m (Some 0) (Some 0) = Ok (at_time dt h m).
Proof.
  intros Hh Hm. unfold replace, at_time. cbn [default].
  rewrite !c_int_small by lia. cbn [andb].
  destruct (Z.leb_spec 0 h), (Z.ltb_spec h 24), (Z.leb_spec 0 m),
    (Z.ltb_spec m 60); try lia. reflexivity.
Qed.

Lemma valid_time_at_time (dt : datetime) (h m : Z) :
  0 <= h < 24 -> 0 <= m < 60 -> valid_time (at_time dt h m).
Proof. unfold valid_time, at_time. cbn. lia. Qed.

Lemma representable_dec (o : Z) :
  (0 <? o) && (o <=? MAXORDINAL) = true <-> representable o.
Proof.
  unfold representable. rewrite andb_true_iff, Z.ltb_lt, Z.leb_le. lia.
Qed.

(** Whenever [add] returns, the wall clock has moved by the length of the
    [timedelta], the tzinfo is the one of the left operand, and the result
    is a valid [datetime]. *)
Lemma add_spec (dt : datetime) (td : timedelta) (r : datetime) :
  add dt td = Ok r ->
  wall_us r = wall_us dt + total_us td
  /\ dt_tzinfo r = dt_tzinfo dt /\ valid r.
Proof.
  unfold add, normalize.
  destruct (Z.abs _ <=? 999999999); [|discriminate].
  cbn [mbind result_bind td_days td_seconds td_microseconds].
  destruct ((0 <? _) && (_ <=? MAXORDINAL)) eqn:Hr; [|discriminate].
  intros H. injection H as <-. apply representable_dec in Hr.
  unfold wall_us, total_us, valid, valid_date, valid_time.
  cbn [ordinal hour minute second microsecond dt_tzinfo].
  unfold representable in Hr.
  repeat split; try apply Hr; Z.div_mod_to_equations; lia.
Qed.

(** [add] returns exactly when the sum is a wall-clock count [datetime] can
    hold; otherwise it raises [OverflowError]. *)
Lemma add_total (dt : datetime) (td : timedelta) :
  match add dt td with
  | Ok _ => in_datetime_range (wall_us dt + total_us td)
  | Raise e =>
      e = OverflowError /\ ~ in_datetime_range (wall_us dt + total_us td)
  end.
Proof.
  unfold add, normalize, in_datetime_range, wall_us, total_us.
  destruct (Z.leb_spec (Z.abs (ordinal dt + td_days td +
              (hour dt * 3600 + minute dt * 60 + second dt + td_seconds td +
               (microsecond dt + td_microseconds td) `div` 1000000)
              `div` 86400)) 999999999) as [Hs|Hs];
    cbn [mbind result_bind td_days td_seconds td_microseconds].
  - match goal with
    | |- context [(0 <? ?d) && (?d <=? MAXORDINAL)] =>
        destruct (Z.ltb_spec 0 d); destruct (Z.leb_spec d MAXORDINAL)
    end; cbn [andb]; unfold MAXORDINAL in *;
      try (split; [reflexivity|]); Z.div_mod_to_equations; lia.
  - split; [reflexivity|]. unfold MAXORDINAL in *.
    Z.div_mod_to_equations. lia.
Qed.

(** [timedelta(minutes=d)]. *)
Lemma timedelta_of_minutes (d : Z) :
  match timedelta_of 0 0 d with
  | Ok td => total_us td = d * 60 * 1000000
  | Raise e => e = OverflowError /\ 999999999 * 1440 < Z.abs d
  end.
Proof.
  unfold timedelta_of, normalize, total_us.
  destruct (Z.leb_spec (Z.abs (0 + (d * 60 + 0 * 3600 + 0 `div` 1000000)
              `div` 86400)) 999999999) as [Hs|Hs];
    cbn [td_days td_seconds td_microseconds].
  - Z.div_mod_to_equations. lia.
  - split; [reflexivity|]. Z.div_mod_to_equations. lia.
Qed.

End Runtime.

(* ===================================================================== *)
(** * The scan of [compute_start]                                         *)
(* ===================================================================== *)

Section Scan.
Import Py ICal GenerateIcs Spec.

Variable now : datetime.
Variable T : gset Z.
Hypothesis now_time : valid_time now.

(** One turn of the loop. *)
Lemma scan_step (d : Z) (rest : list Z) :
  Z.abs d <= 999999999 ->
  scan now T (d :: rest) =
    if (0 <? ordinal now + d) && (ordinal now + d <=? MAXORDINAL) then
      if bool_decide (weekday_of_ordinal (ordinal now + d) ∈ T) && (0 <? d)
      then Ok (Some (plus_days now d))
      else scan now T rest
    else Raise OverflowError.
Proof.
  intros Hd. cbn [scan]. rewrite timedelta_of_days by exact Hd.
  cbn [mbind result_bind]. rewrite add_days by exact now_time.
  destruct ((0 <? ordinal now + d) && (ordinal now + d <=? MAXORDINAL));
    [|reflexivity].
  cbn [mbind result_bind].
  change (weekday (plus_days now d))
    with (weekday_of_ordinal (ordinal now + d)).
  destruct (bool_decide (weekday_of_ordinal (ordinal now + d) ∈ T));
    [|reflexivity].
  rewrite gt_plus_days. cbn [mbind result_bind andb].
  destruct (0 <? d); reflexivity.
Qed.

Lemma qualifies_dec (k : Z) :
  bool_decide (weekday_of_ordinal (ordinal now + k) ∈ T) && (0 <? k) = true
  <-> qualifies now T k.
Proof.
  unfold qualifies.
  rewrite andb_true_iff, bool_decide_eq_true, Z.ltb_lt. reflexivity.
Qed.

(** What the loop does on the offsets [a, a+1, ..., a+n-1]: it returns at the
    least qualifying offset, provided every date up to there exists; it runs
    to its end when no offset qualifies and every date exists; it raises
    [OverflowError] at the first date that does not exist. *)
Lemma scan_range (n : nat) : forall a : Z,
  -999999999 <= a -> a + Z.of_nat n <= 999999999 ->
  match scan now T (seqZ a (Z.of_nat n)) with
  | Ok (Some c) =>
      exists k, a <= k < a + Z.of_nat n /\ c = plus_days now k
        /\ qualifies now T k
        /\ (forall j, a <= j < k -> ~ qualifies now T j)
        /\ (forall j, a <= j <= k -> representable (ordinal now + j))
  | Ok None =>
      forall j, a <= j < a + Z.of_nat n ->
        ~ qualifies now T j /\ representable (ordinal now + j)
  | Raise e =>
      e = OverflowError
      /\ exists k, a <= k < a + Z.of_nat n
           /\ ~ representable (ordinal now + k)
           /\ forall j, a <= j < k ->
                ~ qualifies now T j /\ representable (ordinal now + j)
  end.
Proof.
  induction n as [|n IH]; intros a Hlo Hhi.
  - cbn. intros j Hj. lia.
  - rewrite seqZ_cons by lia.
    replace (Z.pred (Z.of_nat (S n))) with (Z.of_nat n) by lia.
    rewrite scan_step by lia.
    destruct ((0 <? ordinal now + a) && (ordinal now + a <=? MAXORDINAL))
      eqn:Hrep.
    + apply representable_dec in Hrep.
      destruct (bool_decide (weekday_of_ordinal (ordinal now + a) ∈ T)
                && (0 <? a)) eqn:Hq.
      * apply qualifies_dec in Hq. exists a.
        split; [lia|]. split; [reflexivity|]. split; [exact Hq|].
        split; intros j Hj; [lia|]. replace j with a by lia. exact Hrep.
      * assert (Hnq : ~ qualifies now T a).
        { intros Hc. apply qualifies_dec in Hc. congruence. }
        specialize (IH (Z.succ a) ltac:(lia) ltac:(lia)).
        destruct (scan now T (seqZ (Z.succ a) (Z.of_nat n))) as [[c|]|e].
        -- destruct IH as (k & Hk & Hc & Hqk & Hmin & Hr). exists k.
           split; [lia|]. split; [exact Hc|]. split; [exact Hqk|].
           split; intros j Hj; destruct (Z.eq_dec j a) as [->|];
             try assumption; [apply Hmin | apply Hr]; lia.
        -- intros j Hj. destruct (Z.eq_dec j a) as [->|]; [tauto|].
           apply IH. lia.
        -- destruct IH as (-> & k & Hk & Hnr & Hbefore). split; [reflexivity|].
           exists k. split; [lia|]. split; [exact Hnr|].
           intros j Hj. destruct (Z.eq_dec j a) as [->|]; [tauto|].
           apply Hbefore. lia.
    + split; [reflexivity|]. exists a. split; [lia|]. split.
      * intros Hc. apply representable_dec in Hc. congruence.
      * intros j Hj. lia.
Qed.

End Scan.

(* ===================================================================== *)
(** * [compute_start]: the two paths                                      *)
(* ===================================================================== *)

Section ComputeStart.
Import Py ICal GenerateIcs Spec.

Lemma codes_bounds (w : WeekdayCode) : 0 <= codes w <= 6.
Proof. destruct w; cbn; lia. Qed.

Lemma elem_of_targets_of (x : Z) (weekdays : list WeekdayCode) :
  x ∈ targets_of weekdays <-> exists w, w ∈ weekdays /\ codes w = x.
Proof.
  unfold targets_of. rewrite elem_of_list_to_set, list_elem_of_fmap.
  split; intros (w & H1 & H2); exists w; auto.
Qed.

(** Every weekday comes round within the seven days after today. *)
Lemma weekday_within_a_week (o w : Z) :
  0 <= w <= 6 -> exists k, 1 <= k <= 7 /\ weekday_of_ordinal (o + k) = w.
Proof.
  intros Hw. unfold weekday_of_ordinal.
  exists (if (w - (o + 6)) mod 7 =? 0 then 7 else (w - (o + 6)) mod 7).
  destruct (Z.eqb_spec ((w - (o + 6)) mod 7) 0) as [E|E];
    split; Z.div_mod_to_equations; lia.
Qed.

Lemma some_offset_qualifies (now : datetime) (weekdays : list WeekdayCode) :
  weekdays <> [] ->
  exists k, 1 <= k <= 7 /\ qualifies now (targets_of weekdays) k.
Proof.
  destruct weekdays as [|w ws]; [congruence|]. intros _.
  destruct (weekday_within_a_week (ordinal now) (codes w) (codes_bounds w))
    as (k & Hk & Hwk).
  exists k. split; [exact Hk|]. split; [|lia].
  rewrite Hwk. apply elem_of_targets_of. exists w. split; [|reflexivity].
  apply list_elem_of_here.
Qed.

(** The next-occurrence path, once the time of day is read. *)
Lemma compute_start_next (clock : datetime) (dt_str : option string)
    (time_str : string) (hh mm : Z) (weekdays : list WeekdayCode)
    (tz : timezone) :
  no_date dt_str -> time_of_day time_str hh mm ->
  compute_start clock dt_str time_str weekdays tz =
    (found ← scan (at_time clock hh mm) (targets_of weekdays) (seqZ 0 8);
     match found with
     | Some cand => Ok cand
     | None => Py.add (at_time clock hh mm) (mk_timedelta 7 0 0)
     end).
Proof.
  intros Hd (Hparse & Hh & Hm). unfold compute_start. rewrite Hparse.
  cbn [mbind result_bind].
  assert (Hrep : replace clock hh mm (Some 0) (Some 0)
                 = Ok (at_time clock hh mm))
    by (apply replace_hm00; assumption).
  destruct Hd as [-> | ->]; rewrite Hrep; reflexivity.
Qed.

(** The explicit-date path. *)
Lemma strptime_date_shape (s : string) (d : datetime) :
  strptime_date s = Ok d -> d = mk_datetime (ordinal d) 0 0 0 0 None.
Proof.
  unfold strptime_date. intros H.
  repeat match type of H with
         | context [match ?x with _ => _ end] => destruct x; try discriminate
         end.
  injection H as <-. reflexivity.
Qed.

Lemma compute_start_explicit (clock : datetime) (c : ascii) (ds : string)
    (time_str : string) (hh mm : Z) (weekdays : list WeekdayCode)
    (tz : timezone) (d : datetime) :
  time_of_day time_str hh mm -> strptime_date (String c ds) = Ok d ->
  compute_start clock (Some (String c ds)) time_str weekdays tz =
    localize tz (mk_datetime (ordinal d) hh mm 0 0 None).
Proof.
  intros (Hparse & Hh & Hm) Hd. unfold compute_start. rewrite Hparse.
  cbn [mbind result_bind]. rewrite Hd. cbn [mbind result_bind].
  rewrite (strptime_date_shape _ _ Hd). unfold replace.
  cbn [default second microsecond ordinal dt_tzinfo].
  rewrite !c_int_small by lia. change (c_int 0) with true. cbn [andb].
  destruct (Z.leb_spec 0 hh), (Z.ltb_spec hh 24), (Z.leb_spec 0 mm),
    (Z.ltb_spec mm 60); try lia. reflexivity.
Qed.

(** A call that returns has read a valid time of day. *)
Lemma compute_start_ok_time (clock : datetime) (dt_str : option string)
    (time_str : string) (weekdays : list WeekdayCode) (tz : timezone)
    (r : datetime) :
  compute_start clock dt_str time_str weekdays tz = Ok r ->
  exists hh mm, time_of_day time_str hh mm.
Proof.
  unfold compute_start, time_of_day. intros H.
  destruct (mapM int (split ":" time_str)) as [fields|e]; [|discriminate H].
  cbn [mbind result_bind] in H.
  destruct fields as [|hh [|mm [|x rest]]]; try discriminate H.
  exists hh, mm. split; [reflexivity|].
  assert (Hrep : forall dt s us r',
            replace dt hh mm s us = Ok r' -> 0 <= hh < 24 /\ 0 <= mm < 60).
  { intros dt s0 us r'. unfold replace.
    destruct (c_int hh && c_int mm && c_int (default 0 s0)
              && c_int (default 0 us)); [|discriminate].
    destruct (Z.leb_spec 0 hh), (Z.ltb_spec hh 24), (Z.leb_spec 0 mm),
      (Z.ltb_spec mm 60); cbn [andb]; try discriminate. lia. }
  destruct dt_str as [[|c ds]|].
  - destruct (replace clock hh mm (Some 0) (Some 0)) as [now|] eqn:E;
      [exact (Hrep _ _ _ _ E) | discriminate H].
  - destruct (strptime_date (String c ds)) as [d|]; [|discriminate H].
    cbn [mbind result_bind] in H.
    destruct (replace d hh mm None None) as [naive|] eqn:E;
      [exact (Hrep _ _ _ _ E) | discriminate H].
  - destruct (replace clock hh mm (Some 0) (Some 0)) as [now|] eqn:E;
      [exact (Hrep _ _ _ _ E) | discriminate H].
Qed.

(** What [localize] returns is its argument with the zone's tzinfo. *)
Lemma localize_inv (tz : timezone) (dt r : datetime) :
  localize tz dt = Ok r -> r = attach tz dt.
Proof.
  unfold localize. intros H.
  destruct (dt_tzinfo dt); [discriminate H|].
  destruct (zone_fixed tz); [injection H as <-; reflexivity|].
  destruct (Py.add dt (mk_timedelta (-1) 0 0)); cbn [mbind result_bind] in H;
    [|discriminate H].
  destruct (Py.add dt (mk_timedelta 1 0 0)); cbn [mbind result_bind] in H;
    [|discriminate H].
  injection H as <-. reflexivity.
Qed.

(** [localize] on a naive value with a valid time of day: in a zone with
    transitions the first and the last day of [datetime] are refused. *)
Lemma localize_naive (tz : timezone) (o h m : Z) :
  0 <= h < 24 -> 0 <= m < 60 ->
  localize tz (mk_datetime o h m 0 0 None) =
    if zone_fixed tz || ((1 <? o) && (o <? MAXORDINAL))
    then Ok (attach tz (mk_datetime o h m 0 0 None))
    else Raise OverflowError.
Proof.
  intros Hh Hm. unfold localize. cbn [dt_tzinfo].
  destruct (zone_fixed tz); [reflexivity|]. cbn [orb].
  assert (Hv : valid_time (mk_datetime o h m 0 0 None))
    by (unfold valid_time; cbn; lia).
  rewrite !add_days by exact Hv. cbn [ordinal]. unfold MAXORDINAL.
  destruct (Z.ltb_spec 0 (o + -1)), (Z.leb_spec (o + -1) 3652059),
    (Z.ltb_spec 0 (o + 1)), (Z.leb_spec (o + 1) 3652059),
    (Z.ltb_spec 1 o), (Z.ltb_spec o 3652059);
    cbn [andb mbind result_bind]; try reflexivity; lia.
Qed.

End ComputeStart.

(* ===================================================================== *)
(** * The occurrence calculator                                           *)
(* ===================================================================== *)

Section Occurrence.
Import Py ICal GenerateIcs Spec.

Lemma time_of_day_18_00 : time_of_day "18:00" 18 0.
Proof. split; [vm_compute; reflexivity | lia]. Qed.

(** The loop over one week, read off [scan_range]. *)
Lemma scan_week (now : datetime) (T : gset Z) :
  valid_time now ->
  match scan now T (seqZ 0 8) with
  | Ok (Some c) =>
      exists k, 0 <= k < 8 /\ c = plus_days now k /\ qualifies now T k
        /\ (forall j, 0 <= j < k -> ~ qualifies now T j)
        /\ (forall j, 0 <= j <= k -> representable (ordinal now + j))
  | Ok None =>
      forall j, 0 <= j < 8 ->
        ~ qualifies now T j /\ representable (ordinal now + j)
  | Raise e =>
      e = OverflowError
      /\ exists k, 0 <= k < 8 /\ ~ representable (ordinal now + k)
           /\ forall j, 0 <= j < k ->
                ~ qualifies now T j /\ representable (ordinal now + j)
  end.
Proof.
  intros Hv. exact (scan_range now T Hv 8 0 ltac:(lia) ltac:(lia)).
Qed.

(** With a week of existing dates ahead the loop cannot raise. *)
Lemma scan_week_total (clock : datetime) (hh mm : Z) (T : gset Z) :
  0 <= hh < 24 -> 0 <= mm < 60 -> week_ahead clock ->
  exists found, scan (at_time clock hh mm) T (seqZ 0 8) = Ok found.
Proof.
  intros Hh Hm [Hlo Hhi].
  pose proof (scan_week (at_time clock hh mm) T
                (valid_time_at_time clock hh mm Hh Hm)) as H.
  destruct (scan (at_time clock hh mm) T (seqZ 0 8)) as [found|e];
    [eauto|].
  destruct H as (_ & k & Hk & Hnr & _). exfalso. apply Hnr.
  unfold representable. cbn [at_time ordinal]. lia.
Qed.

(** The run of the example shared by C1 and C2. *)
Lemma same_day_next_week_eq :
  compute_start fri_2025_06_06_10h None "18:00" [FR] Asia_Kolkata
    = Ok fri_2025_06_13_18h.
Proof. vm_compute. reflexivity. Qed.

End Occurrence.

Section NextOccurrence.
Import Py ICal GenerateIcs Spec.

Variables (clock : datetime) (time_str : string) (hh mm : Z).
Variables (weekdays : list WeekdayCode) (tz : timezone).
Hypothesis time_ok : time_of_day time_str hh mm.

Lemma now_valid_time : valid_time (at_time clock hh mm).
Proof.
  destruct time_ok as (_ & Hh & Hm). apply valid_time_at_time; assumption.
Qed.

(** The result of the next-occurrence path in every case: at the least
    qualifying offset when there is one and the dates up to it exist, one
    week ahead when nothing qualifies and the week exists, and an
    [OverflowError] when a date past 9999-12-31 comes first. *)
Lemma compute_start_cases :
  match compute_start clock None time_str weekdays tz with
  | Ok r =>
      exists k, 1 <= k <= 7 /\ r = plus_days (at_time clock hh mm) k
        /\ representable (ordinal clock + k)
        /\ (forall j, 1 <= j < k ->
              ~ qualifies (at_time clock hh mm) (targets_of weekdays) j)
        /\ (qualifies (at_time clock hh mm) (targets_of weekdays) k
            \/ (k = 7 /\ forall j, 0 <= j < 8 ->
                   ~ qualifies (at_time clock hh mm) (targets_of weekdays) j))
  | Raise e =>
      e = OverflowError
      /\ exists k, 0 <= k <= 7 /\ ~ representable (ordinal clock + k)
           /\ forall j, 0 <= j < k ->
                ~ qualifies (at_time clock hh mm) (targets_of weekdays) j
  end.
Proof.
  rewrite (compute_start_next clock None time_str hh mm weekdays tz)
    by (try left; auto).
  set (now := at_time clock hh mm). set (T := targets_of weekdays).
  pose proof (scan_week now T now_valid_time) as H.
  destruct (scan now T (seqZ 0 8)) as [[c|]|e]; cbn [mbind result_bind].
  - destruct H as (k & Hk & -> & Hq & Hmin & Hrep).
    assert (0 < k) by (destruct Hq; lia).
    exists k. split; [lia|]. split; [reflexivity|].
    split; [apply (Hrep k); lia|]. split; [|left; exact Hq].
    intros j Hj. apply Hmin. lia.
  - rewrite add_days by exact now_valid_time.
    change (ordinal now) with (ordinal clock).
    destruct ((0 <? ordinal clock + 7) && (ordinal clock + 7 <=? MAXORDINAL))
      eqn:Hr.
    + apply representable_dec in Hr. exists 7. split; [lia|].
      split; [reflexivity|]. split; [exact Hr|]. split.
      * intros j Hj. apply H. lia.
      * right. split; [reflexivity|]. intros j Hj. apply H. exact Hj.
    + split; [reflexivity|]. exists 7. split; [lia|]. split.
      * intros Hc. apply representable_dec in Hc. congruence.
      * intros j Hj. apply H. lia.
  - destruct H as (-> & k & Hk & Hnr & Hbefore). split; [reflexivity|].
    exists k. split; [lia|]. split; [exact Hnr|].
    intros j Hj. apply Hbefore. exact Hj.
Qed.

End NextOccurrence.

Section OccurrenceClaims.
Import Py ICal GenerateIcs Spec.

Lemma targets_of_nil_empty (x : Z) : x ∉ targets_of [].
Proof.
  intros H. apply elem_of_targets_of in H. destruct H as (w & Hw & _).
  inversion Hw.
Qed.

Lemma wall_us_plus_days (dt : datetime) (k : Z) :
  wall_us (plus_days dt k) = wall_us dt + k * 86400000000.
Proof. unfold wall_us, plus_days. cbn. lia. Qed.

(** ** C10 *)

(** C10.  In the next-occurrence path, for every clock reading, every valid
    time of day, every weekday set and every zone, [compute_start] either
    returns the adjusted "now" moved forward by a whole number [k] of days
    with [1 <= k <= 7] -- so never an instant on the current day, and at
    least one full day after the adjusted "now" -- or raises
    [OverflowError], which needs a clock within the last week of year
    9999. *)
Theorem never_on_the_current_day (clock : datetime) (time_str : string)
    (hh mm : Z) (weekdays : list WeekdayCode) (tz : timezone) :
  time_of_day time_str hh mm ->
  match compute_start clock None time_str weekdays tz with
  | Ok r =>
      (exists k, 1 <= k <= 7 /\ r = plus_days (at_time clock hh mm) k)
      /\ ordinal clock < ordinal r
      /\ wall_us (at_time clock hh mm) + 86400 * 1000000 <= wall_us r
  | Raise e => e = OverflowError /\ ~ week_ahead clock
  end.
Proof.
  intros Ht.
  pose proof (compute_start_cases clock time_str hh mm weekdays tz Ht) as H.
  destruct (compute_start clock None time_str weekdays tz) as [r|e].
  - destruct H as (k & Hk & -> & _). split; [exists k; auto|].
    rewrite wall_us_plus_days. cbn [plus_days at_time ordinal]. lia.
  - destruct H as (-> & k & Hk & Hnr & _). split; [reflexivity|].
    unfold week_ahead, representable in *. lia.
Qed.

Lemma never_on_the_current_day_witness :
  match compute_start fri_2025_06_06_10h None "18:00" [FR] Asia_Kolkata with
  | Ok r =>
      (exists k, 1 <= k <= 7
                 /\ r = plus_days (at_time fri_2025_06_06_10h 18 0) k)
      /\ ordinal fri_2025_06_06_10h < ordinal r
      /\ wall_us (at_time fri_2025_06_06_10h 18 0) + 86400 * 1000000
         <= wall_us r
  | Raise e => e = OverflowError /\ ~ week_ahead fri_2025_06_06_10h
  end.
Proof.
  apply (never_on_the_current_day fri_2025_06_06_10h "18:00" 18 0 [FR]
           Asia_Kolkata).
  split; [vm_compute; reflexivity | lia].
Defined.

(** ** C4 *)

(** C4.  With a valid time of day and a week of existing dates ahead of the
    clock: for a non-empty weekday set the loop over the offsets 0 to 7
    returns a candidate whose weekday is in the set and which is strictly
    later than the adjusted "now", and that candidate is the result; the
    loop runs to its end exactly when the weekday set is empty; and then the
    fallback returns the adjusted "now" plus seven days. *)
Theorem fallback_only_for_empty_set (clock : datetime) (time_str : string)
    (hh mm : Z) (weekdays : list WeekdayCode) (tz : timezone) :
  time_of_day time_str hh mm -> week_ahead clock ->
  (weekdays <> [] ->
     exists cand,
       scan (at_time clock hh mm) (targets_of weekdays) (seqZ 0 8)
         = Ok (Some cand)
       /\ compute_start clock None time_str weekdays tz = Ok cand
       /\ weekday cand ∈ targets_of weekdays
       /\ gt cand (at_time clock hh mm) = Ok true)
  /\ (scan (at_time clock hh mm) (targets_of weekdays) (seqZ 0 8) = Ok None
      <-> weekdays = [])
  /\ (weekdays = [] ->
      compute_start clock None time_str weekdays tz
        = Ok (plus_days (at_time clock hh mm) 7)).
Proof.
  intros Ht Hw. pose proof Ht as (_ & Hh & Hm).
  set (now := at_time clock hh mm). set (T := targets_of weekdays).
  assert (Hv : valid_time now) by (apply valid_time_at_time; assumption).
  destruct (scan_week_total clock hh mm T Hh Hm Hw) as [found Hfound].
  fold now in Hfound.
  pose proof (scan_week now T Hv) as Hscan. rewrite Hfound in Hscan.
  pose proof (compute_start_next clock None time_str hh mm weekdays tz
                (or_introl eq_refl) Ht) as Hcs.
  fold now T in Hcs. rewrite Hfound in Hcs. cbn [mbind result_bind] in Hcs.
  destruct found as [c|].
  - destruct Hscan as (k & Hk & -> & [Hin Hpos] & _).
    assert (Hne : weekdays <> []).
    { intros ->. exact (targets_of_nil_empty _ Hin). }
    split; [|split].
    + intros _. exists (plus_days now k). split; [exact Hfound|].
      split; [exact Hcs|]. split; [exact Hin|].
      rewrite gt_plus_days. f_equal. apply Z.ltb_lt. exact Hpos.
    + rewrite Hfound. split; [intros E; discriminate E | intros E; contradiction].
    + intros E. contradiction.
  - assert (He : weekdays = []).
    { destruct weekdays as [|w ws]; [reflexivity|]. exfalso.
      destruct (some_offset_qualifies now (w :: ws)) as (k & Hk & Hq);
        [discriminate|].
      destruct (Hscan k) as [Hnq _]; [lia|]. apply Hnq. exact Hq. }
    split; [|split].
    + intros Hne. contradiction.
    + rewrite Hfound. split; auto.
    + intros _. rewrite Hcs. rewrite add_days by exact Hv.
      destruct Hw as [Hlo Hhi].
      change (ordinal now) with (ordinal clock).
      destruct (Z.ltb_spec 0 (ordinal clock + 7)); [|lia].
      destruct (Z.leb_spec (ordinal clock + 7) MAXORDINAL); [|lia].
      reflexivity.
Qed.

Lemma fallback_only_for_empty_set_witness :
  (([FR] : list WeekdayCode) <> [] ->
     exists cand,
       scan (at_time wed_2025_06_04_10h 18 0) (targets_of [FR]) (seqZ 0 8)
         = Ok (Some cand)
       /\ compute_start wed_2025_06_04_10h None "18:00" [FR] Asia_Kolkata
          = Ok cand
       /\ weekday cand ∈ targets_of [FR]
       /\ gt cand (at_time wed_2025_06_04_10h 18 0) = Ok true)
  /\ (scan (at_time wed_2025_06_04_10h 18 0) (targets_of [FR]) (seqZ 0 8)
        = Ok None
      <-> ([FR] : list WeekdayCode) = [])
  /\ (([FR] : list WeekdayCode) = [] ->
      compute_start wed_2025_06_04_10h None "18:00" [FR] Asia_Kolkata
        = Ok (plus_days (at_time wed_2025_06_04_10h 18 0) 7)).
Proof.
  apply (fallback_only_for_empty_set wed_2025_06_04_10h "18:00" 18 0 [FR]
           Asia_Kolkata).
  - split; [vm_compute; reflexivity | lia].
  - unfold week_ahead. vm_compute. split; discriminate.
Defined.

End OccurrenceClaims.

Section EarliestAndExplicit.
Import Py ICal GenerateIcs Spec.

(** ** C1 *)

(** C1, as the code has it.  In the next-occurrence path a same-day
    occurrence never qualifies, whether or not the requested time of day
    has passed: whatever [compute_start] returns lies on a day strictly
    after the day of the clock reading, for every clock, time text, weekday
    set and zone.  With the clock at Friday 2025-06-06 10:00 IST and 18:00
    on Fridays requested, the start is Friday 2025-06-13 18:00 IST.  (The
    offset-0 candidate is the adjusted "now" itself and is not strictly
    later than it.) *)
Theorem same_day_next_week :
  (forall (clock : datetime) (time_str : string)
     (weekdays : list WeekdayCode) (tz : timezone) (r : datetime),
     compute_start clock None time_str weekdays tz = Ok r ->
     ordinal clock < ordinal r)
  /\ compute_start fri_2025_06_06_10h None "18:00" [FR] Asia_Kolkata
     = Ok fri_2025_06_13_18h
  /\ weekday fri_2025_06_06_10h = codes FR
  /\ ord2ymd (ordinal fri_2025_06_13_18h) = (2025, 6, 13).
Proof.
  split.
  - intros clock time_str weekdays tz r H.
    destruct (compute_start_ok_time _ _ _ _ _ _ H) as (hh & mm & Ht).
    pose proof (compute_start_cases clock time_str hh mm weekdays tz Ht) as Hc.
    rewrite H in Hc. destruct Hc as (k & Hk & -> & _).
    cbn [plus_days at_time ordinal]. lia.
  - repeat split; vm_compute; reflexivity.
Qed.

Lemma same_day_next_week_witness :
  ordinal fri_2025_06_06_10h < ordinal fri_2025_06_13_18h.
Proof.
  apply (proj1 same_day_next_week fri_2025_06_06_10h "18:00" [FR]
           Asia_Kolkata fri_2025_06_13_18h).
  vm_compute. reflexivity.
Defined.

(** C1 as stated fails: the computed start is not 2025-06-06 18:00 IST. *)
Lemma same_day_not_returned :
  compute_start fri_2025_06_06_10h None "18:00" [FR] Asia_Kolkata
    <> Ok fri_2025_06_06_18h.
Proof. vm_compute. intros H. discriminate H. Qed.

(** ** C2 *)

(** C2, as the code has it.  [compute_start] is a function of the clock
    reading, the date text, the time text, the weekday set and the zone.
    In the next-occurrence path, with a valid time of day, a non-empty
    weekday set and a week of existing dates ahead, it returns the earliest
    instant at the requested time of day (seconds zero, the clock's tzinfo)
    that lies on a day strictly after the clock's day and whose weekday is
    in the set.  With an explicit date the outcome is that of localizing
    the date at the requested time in the given zone, whatever the clock
    and the weekday set. *)
Theorem earliest_on_a_later_day (clock : datetime) (time_str : string)
    (hh mm : Z) (weekdays : list WeekdayCode) (tz : timezone) :
  time_of_day time_str hh mm -> weekdays <> [] -> week_ahead clock ->
  (exists r,
     compute_start clock None time_str weekdays tz = Ok r
     /\ (hour r, minute r, second r, microsecond r) = (hh, mm, 0, 0)
     /\ dt_tzinfo r = dt_tzinfo clock
     /\ ordinal clock < ordinal r
     /\ weekday r ∈ targets_of weekdays
     /\ forall o, ordinal clock < o ->
          weekday_of_ordinal o ∈ targets_of weekdays -> ordinal r <= o)
  /\ (forall (c : ascii) (ds : string) (d : datetime)
        (clock' : datetime) (weekdays' : list WeekdayCode),
        strptime_date (String c ds) = Ok d ->
        compute_start clock' (Some (String c ds)) time_str weekdays' tz
          = localize tz (mk_datetime (ordinal d) hh mm 0 0 None)).
Proof.
  intros Ht Hne Hw. split.
  - pose proof (compute_start_cases clock time_str hh mm weekdays tz Ht) as H.
    destruct (compute_start clock None time_str weekdays tz) as [r|e].
    + destruct H as (k & Hk & -> & Hrep & Hmin & Hq).
      destruct (some_offset_qualifies (at_time clock hh mm) weekdays Hne)
        as (k0 & Hk0 & Hq0).
      destruct Hq as [Hq | [_ Hnone]];
        [|exfalso; apply (Hnone k0); [lia | exact Hq0]].
      exists (plus_days (at_time clock hh mm) k).
      split; [reflexivity|]. split; [reflexivity|]. split; [reflexivity|].
      cbn [plus_days at_time ordinal]. split; [lia|].
      split; [exact (proj1 Hq)|].
      intros o Ho Hin. destruct (Z.le_gt_cases (ordinal clock + k) o) as [|Hlt];
        [assumption|]. exfalso. apply (Hmin (o - ordinal clock)); [lia|].
      split; [|lia]. cbn [at_time ordinal].
      replace (ordinal clock + (o - ordinal clock)) with o by lia. exact Hin.
    + destruct H as (_ & k & Hk & Hnr & _). exfalso. apply Hnr.
      unfold week_ahead, representable in *. lia.
  - intros c ds d clock' weekdays' Hd.
    apply compute_start_explicit; assumption.
Qed.

Lemma earliest_on_a_later_day_witness :
  exists r,
    compute_start fri_2025_06_06_10h None "18:00" [MO; WE; FR] Asia_Kolkata
      = Ok r
    /\ ordinal fri_2025_06_06_10h < ordinal r
    /\ weekday r ∈ targets_of [MO; WE; FR].
Proof.
  destruct (earliest_on_a_later_day fri_2025_06_06_10h "18:00" 18 0
              [MO; WE; FR] Asia_Kolkata) as [(r & Hr & _ & _ & Hlt & Hin & _) _].
  - split; [vm_compute; reflexivity | lia].
  - discriminate.
  - unfold week_ahead. vm_compute. split; discriminate.
  - exists r. split; [exact Hr|]. split; [exact Hlt | exact Hin].
Defined.

(** C2 as stated fails.  With the clock at Friday 2025-06-06 10:00 IST,
    18:00 and the set [FR], the result is not the earliest occurrence
    strictly after the clock reading: the occurrence of the same Friday,
    18:00, is after the clock reading and a week before the result. *)
Lemma not_earliest_after_now :
  ~ exists r,
      compute_start fri_2025_06_06_10h None "18:00" [FR] Asia_Kolkata = Ok r
      /\ earliest_occurrence fri_2025_06_06_10h 18 0 (targets_of [FR]) r.
Proof.
  intros (r & Hr & _ & _ & _ & Hmin).
  rewrite same_day_next_week_eq in Hr. injection Hr as <-.
  specialize (Hmin 0).
  assert (H : gt fri_2025_06_13_18h
                (plus_days (at_time fri_2025_06_06_10h 18 0) 0) = Ok false).
  { apply Hmin; vm_compute; reflexivity. }
  vm_compute in H. discriminate H.
Qed.

(** Where the specification and the code agree, the code's result is the
    earliest occurrence in the sense above: with the clock at Wednesday
    2025-06-04 10:00 IST the start, Friday 2025-06-06 18:00 IST, is. *)
Lemma earliest_on_a_wednesday :
  compute_start wed_2025_06_04_10h None "18:00" [FR] Asia_Kolkata
    = Ok fri_2025_06_06_18h
  /\ earliest_occurrence wed_2025_06_04_10h 18 0 (targets_of [FR])
       fri_2025_06_06_18h.
Proof.
  split; [vm_compute; reflexivity|].
  split; [exists 2; vm_compute; reflexivity|].
  split; [vm_compute; reflexivity|]. split; [vm_compute; reflexivity|].
  intros k Hin Hgt.
  apply elem_of_targets_of in Hin. destruct Hin as (w & Hw & E).
  apply list_elem_of_singleton in Hw. subst w.
  unfold gt in *. cbn [dt_tzinfo plus_days at_time wed_2025_06_04_10h
    fri_2025_06_06_18h] in *.
  injection Hgt as Hgt. apply Z.ltb_lt in Hgt. f_equal. apply Z.ltb_ge.
  unfold weekday, utc_us, wall_us in *.
  cbn [ordinal hour minute second microsecond plus_days at_time
    wed_2025_06_04_10h fri_2025_06_06_18h IST tz_utcoffset codes] in *.
  change (ymd2ord 2025 6 4) with 739406 in *.
  change (ymd2ord 2025 6 6) with 739408.
  Z.div_mod_to_equations. lia.
Qed.

End EarliestAndExplicit.

Section IsoDate.
Import Py ICal GenerateIcs Spec.

Lemma is_leap_true (y : Z) : is_leap y = true -> y mod 4 = 0.
Proof.
  unfold is_leap. rewrite andb_true_iff, Z.eqb_eq. tauto.
Qed.

Lemma digit_char_facts (k : Z) :
  0 <= k <= 9 ->
  is_digit (digit_char k) = true /\ digit_val (digit_char k) = k
  /\ Ascii.eqb (digit_char k) "-" = false.
Proof.
  intros Hk.
  assert (H : k = 0 \/ k = 1 \/ k = 2 \/ k = 3 \/ k = 4 \/ k = 5 \/ k = 6
              \/ k = 7 \/ k = 8 \/ k = 9) by lia.
  repeat (destruct H as [-> | H]); try subst k; repeat split.
Qed.

Lemma split_iso (c1 c2 c3 c4 c5 c6 c7 c8 : ascii) :
  Ascii.eqb c1 "-" = false -> Ascii.eqb c2 "-" = false ->
  Ascii.eqb c3 "-" = false -> Ascii.eqb c4 "-" = false ->
  Ascii.eqb c5 "-" = false -> Ascii.eqb c6 "-" = false ->
  Ascii.eqb c7 "-" = false -> Ascii.eqb c8 "-" = false ->
  split "-"
    (String c1 (String c2 (String c3 (String c4 (String "-"
       (String c5 (String c6 (String "-" (String c7 (String c8 "")))))))))) =
    [String c1 (String c2 (String c3 (String c4 "")));
     String c5 (String c6 ""); String c7 (String c8 "")].
Proof.
  intros H1 H2 H3 H4 H5 H6 H7 H8. cbn [split].
  rewrite H1, H2, H3, H4, H5, H6, H7, H8. reflexivity.
Qed.

Lemma match_Y_four_digits (y : Z) :
  0 <= y <= 9999 -> match_Y (four_digits y) = Some y.
Proof.
  intros Hy. unfold match_Y, four_digits, two_digits.
  cbn [list_ascii_of_string forallb digits].
  destruct (digit_char_facts (y / 1000)) as (D1 & V1 & _);
    [Z.div_mod_to_equations; lia|].
  destruct (digit_char_facts (y / 100 mod 10)) as (D2 & V2 & _);
    [Z.div_mod_to_equations; lia|].
  destruct (digit_char_facts (y mod 100 / 10)) as (D3 & V3 & _);
    [Z.div_mod_to_equations; lia|].
  destruct (digit_char_facts ((y mod 100) mod 10)) as (D4 & V4 & _);
    [Z.div_mod_to_equations; lia|].
  rewrite D1, D2, D3, D4, V1, V2, V3, V4. cbn [andb]. f_equal.
  Z.div_mod_to_equations. lia.
Qed.

Lemma match_m_two_digits (m : Z) :
  1 <= m <= 12 -> match_m (two_digits m) = Some m.
Proof.
  intros Hm.
  assert (H : m = 1 \/ m = 2 \/ m = 3 \/ m = 4 \/ m = 5 \/ m = 6 \/ m = 7
              \/ m = 8 \/ m = 9 \/ m = 10 \/ m = 11 \/ m = 12) by lia.
  repeat (destruct H as [-> | H]); try subst m; reflexivity.
Qed.

Lemma match_d_two_digits (d : Z) :
  1 <= d <= 31 -> match_d (two_digits d) = Some d.
Proof.
  intros Hd.
  assert (H : (1 <= d <= 8) \/ (9 <= d <= 16) \/ (17 <= d <= 24)
              \/ (25 <= d <= 31)) by lia.
  destruct H as [H | [H | [H | H]]];
    match type of H with
    | ?lo <= _ <= _ =>
        assert (H' : d = lo \/ d = lo + 1 \/ d = lo + 2 \/ d = lo + 3
                     \/ d = lo + 4 \/ d = lo + 5 \/ d = lo + 6
                     \/ d = lo + 7) by lia
    end;
    repeat (destruct H' as [-> | H']); try subst d; try reflexivity; lia.
Qed.

Lemma days_in_month_le_31 (y m : Z) : days_in_month y m <= 31.
Proof.
  unfold days_in_month. destruct ((m =? 2) && is_leap y); [lia|].
  destruct (Z.to_nat (m - 1)) as [|[|[|[|[|[|[|[|[|[|[|[|n]]]]]]]]]]]];
    cbn; try lia. destruct n; cbn; lia.
Qed.

(** [strptime] reads back the year, month and day of a date in
    YYYY-MM-DD form. *)
Lemma strptime_iso_date (y m d : Z) :
  valid_ymd y m d ->
  strptime_date (iso_date y m d)
    = Ok (mk_datetime (ymd2ord y m d) 0 0 0 0 None).
Proof.
  unfold valid_ymd, MINYEAR, MAXYEAR. intros (Hy & Hm & Hd).
  pose proof (days_in_month_le_31 y m) as H31.
  unfold strptime_date.
  assert (Hsplit : split "-" (iso_date y m d)
                   = [four_digits y; two_digits m; two_digits d]).
  { unfold iso_date, four_digits, two_digits. cbn [String.append].
    apply split_iso; apply digit_char_facts; Z.div_mod_to_equations; lia. }
  rewrite Hsplit, match_Y_four_digits, match_m_two_digits,
    match_d_two_digits by lia.
  unfold MINYEAR, MAXYEAR.
  destruct (Z.leb_spec 1 y), (Z.leb_spec y 9999), (Z.leb_spec 1 d),
    (Z.leb_spec d (days_in_month y m)); try lia. reflexivity.
Qed.

(** The first and the last day of [datetime]. *)
Lemma first_and_last_day (y m d : Z) :
  valid_ymd y m d ->
  (ymd2ord y m d = 1 <-> y = 1 /\ m = 1 /\ d = 1)
  /\ (ymd2ord y m d = MAXORDINAL <-> y = 9999 /\ m = 12 /\ d = 31).
Proof.
  unfold valid_ymd, MINYEAR, MAXYEAR, MAXORDINAL. intros (Hy & Hm & Hd).
  revert Hd.
  unfold ymd2ord, days_in_month, days_before_month, days_before_year.
  pose proof (is_leap_true y) as Hleap.
  assert (Hcases : m = 1 \/ m = 2 \/ m = 3 \/ m = 4 \/ m = 5 \/ m = 6
                   \/ m = 7 \/ m = 8 \/ m = 9 \/ m = 10 \/ m = 11 \/ m = 12)
    by lia.
  repeat (destruct Hcases as [-> | Hcases]); try subst m;
    repeat match goal with
           | |- context [nth ?n ?l ?d] =>
               let v := eval vm_compute in (nth n l d) in
               change (nth n l d) with v
           | |- context [?a =? ?b] =>
               let v := eval vm_compute in (a =? b) in
               change (a =? b) with v
           | |- context [?a <? ?b] =>
               let v := eval vm_compute in (a <? b) in
               change (a <? b) with v
           end;
    destruct (is_leap y); cbn [andb]; intros Hd;
    try specialize (Hleap eq_refl);
    (split; split; intros H; Z.div_mod_to_equations; lia).
Qed.

(** [ord2ymd] is the inverse of [ymd2ord] on the dates of the calendar. *)

Lemma is_leap_spec (y : Z) :
  is_leap y = true <-> (y mod 4 = 0 /\ (y mod 100 <> 0 \/ y mod 400 = 0)).
Proof.
  unfold is_leap. rewrite andb_true_iff, orb_true_iff, negb_true_iff.
  rewrite !Z.eqb_eq, Z.eqb_neq. tauto.
Qed.

(** The year that [ord2ymd] reads off a day count: [n] is the number of
    days before day [doy] (counted from 0) of year [y]. *)
Lemma ord2ymd_year (y doy n : Z) :
  1 <= y ->
  0 <= doy < 365 + (if is_leap y then 1 else 0) ->
  n = days_before_year y + doy ->
  let n400 := n / 146097 in
  let n100 := (n mod 146097) / 36524 in
  let n4 := ((n mod 146097) mod 36524) / 1461 in
  let n1 := (((n mod 146097) mod 36524) mod 1461) / 365 in
  let r := (((n mod 146097) mod 36524) mod 1461) mod 365 in
  (doy = 365 /\ (n1 =? 4) || (n100 =? 4) = true
   /\ n400 * 400 + 1 + n100 * 100 + n4 * 4 + n1 - 1 = y)
  \/ (doy < 365 /\ (n1 =? 4) || (n100 =? 4) = false
      /\ n400 * 400 + 1 + n100 * 100 + n4 * 4 + n1 = y
      /\ r = doy
      /\ ((n1 =? 3) && (negb (n4 =? 24) || (n100 =? 3))) = is_leap y).
Proof.
  intros Hy Hdoy Hn. unfold days_before_year in Hn.
  pose proof (is_leap_spec y) as Hl. cbv zeta.
  set (a := (y - 1) / 400).
  set (b := ((y - 1) mod 400) / 100).
  set (c := ((y - 1) mod 100) / 4).
  set (e := (y - 1) mod 4).
  assert (Hdec : y - 1 = 400 * a + 100 * b + 4 * c + e
                 /\ 0 <= a /\ 0 <= b < 4 /\ 0 <= c < 25 /\ 0 <= e < 4).
  { subst a b c e. Z.div_mod_to_equations. lia. }
  assert (Hn' : n = 146097 * a + 36524 * b + 1461 * c + 365 * e + doy).
  { subst n a b c e. Z.div_mod_to_equations. lia. }
  assert (Hleap : is_leap y = true <-> (e = 3 /\ (c <> 24 \/ b = 3))).
  { rewrite Hl. subst a b c e. Z.div_mod_to_equations. lia. }
  clearbody a b c e. clear Hl Hn.
  destruct Hdec as (Hy' & Ha & Hb & Hc & He).
  assert (Hdoy' : 0 <= doy <= 365 /\ (doy = 365 -> is_leap y = true))
    by (destruct (is_leap y); lia).
  clear Hdoy. destruct Hdoy' as [Hdoy H365].
  destruct (Z.eq_dec doy 365) as [Hd|Hd].
  - left. destruct (proj1 Hleap (H365 Hd)) as [He3 Hcb]. subst doy n e.
    clear Hleap H365. split; [reflexivity|].
    rewrite orb_true_iff, !Z.eqb_eq. Z.div_mod_to_equations. lia.
  - right.
    assert (E : n / 146097 = a
                /\ (n mod 146097) / 36524 = b
                /\ ((n mod 146097) mod 36524) / 1461 = c
                /\ (((n mod 146097) mod 36524) mod 1461) / 365 = e
                /\ (((n mod 146097) mod 36524) mod 1461) mod 365 = doy).
    { clear Hleap H365.
      assert (E1 : n / 146097 = a
                   /\ n mod 146097 = 36524 * b + 1461 * c + 365 * e + doy)
        by (subst n; Z.div_mod_to_equations; lia).
      destruct E1 as [E1a E1b]; rewrite ?E1a, ?E1b.
      assert (E2 : (36524 * b + 1461 * c + 365 * e + doy) / 36524 = b
                   /\ (36524 * b + 1461 * c + 365 * e + doy) mod 36524
                      = 1461 * c + 365 * e + doy)
        by (Z.div_mod_to_equations; lia).
      destruct E2 as [E2a E2b]; rewrite ?E2a, ?E2b.
      assert (E3 : (1461 * c + 365 * e + doy) / 1461 = c
                   /\ (1461 * c + 365 * e + doy) mod 1461 = 365 * e + doy)
        by (Z.div_mod_to_equations; lia).
      destruct E3 as [E3a E3b]; rewrite ?E3a, ?E3b.
      assert (E4 : (365 * e + doy) / 365 = e
                   /\ (365 * e + doy) mod 365 = doy)
        by (Z.div_mod_to_equations; lia).
      destruct E4 as [E4a E4b]; rewrite ?E4a, ?E4b. repeat split. }
    destruct E as (E1 & E2 & E3 & E4 & E5). rewrite E1, E2, E3, E4, E5.
    split; [lia|].
    split; [destruct (Z.eqb_spec e 4), (Z.eqb_spec b 4); cbn; lia || auto|].
    split; [lia|]. split; [reflexivity|].
    destruct (is_leap y).
    + destruct (proj1 Hleap eq_refl) as [-> Hcb].
      destruct (Z.eqb_spec c 24), (Z.eqb_spec b 3); cbn; try reflexivity; lia.
    + destruct (Z.eqb_spec e 3), (Z.eqb_spec c 24), (Z.eqb_spec b 3); cbn;
        try reflexivity; exfalso;
        assert (Hf : false = true) by (apply Hleap; lia); discriminate Hf.
Qed.

Lemma month_day_of_year (leap : bool) (m d : Z) :
  1 <= m <= 12 -> 1 <= d <= month_length leap m ->
  0 <= day_of_year leap m d < 365 + (if leap then 1 else 0)
  /\ (day_of_year leap m d = 365 -> m = 12 /\ d = 31)
  /\ month_day leap (day_of_year leap m d) = (m, d).
Proof.
  intros Hm Hd.
  assert (Hall :
    forallb (fun l => forallb (fun m => forallb (fun d =>
      implb (d <=? month_length l m)
        ((0 <=? day_of_year l m d)
         && (day_of_year l m d <? 365 + (if l then 1 else 0))
         && implb (day_of_year l m d =? 365) ((m =? 12) && (d =? 31))
         && ((month_day l (day_of_year l m d)).1 =? m)
         && ((month_day l (day_of_year l m d)).2 =? d)))
      (seqZ 1 31)) (seqZ 1 12)) [true; false] = true)
    by (vm_compute; reflexivity).
  rewrite forallb_forall in Hall.
  assert (Hl : In leap [true; false]) by (destruct leap; cbn; auto).
  specialize (Hall leap Hl). rewrite forallb_forall in Hall.
  assert (Hd31 : month_length leap m <= 31).
  { assert (Hc : m = 1 \/ m = 2 \/ m = 3 \/ m = 4 \/ m = 5 \/ m = 6
                 \/ m = 7 \/ m = 8 \/ m = 9 \/ m = 10 \/ m = 11 \/ m = 12)
      by lia.
    repeat (destruct Hc as [-> | Hc]); try subst m; destruct leap;
      vm_compute; discriminate. }
  assert (Hmi : In m (seqZ 1 12))
    by (apply list_elem_of_In, elem_of_seqZ; lia).
  specialize (Hall m Hmi). rewrite forallb_forall in Hall.
  assert (Hdi : In d (seqZ 1 31))
    by (apply list_elem_of_In, elem_of_seqZ; lia).
  specialize (Hall d Hdi).
  destruct (Z.leb_spec d (month_length leap m)); [|lia].
  cbn [implb] in Hall. rewrite !andb_true_iff in Hall.
  destruct Hall as ((((H0 & H1) & H2) & H3) & H4).
  apply Z.leb_le in H0. apply Z.ltb_lt in H1. apply Z.eqb_eq in H3, H4.
  split; [lia|]. split.
  - intros E. rewrite E in H2. cbn in H2.
    apply andb_true_iff in H2. rewrite !Z.eqb_eq in H2. exact H2.
  - destruct (month_day leap (day_of_year leap m d)) as [a b]. cbn in *.
    congruence.
Qed.

Lemma ord2ymd_ymd2ord (y m d : Z) :
  valid_ymd y m d -> ord2ymd (ymd2ord y m d) = (y, m, d).
Proof.
  unfold valid_ymd, MINYEAR, MAXYEAR. intros (Hy & Hm & Hd).
  destruct (month_day_of_year (is_leap y) m d Hm Hd) as (Hdoy & H365 & Hmd).
  assert (Hn : ymd2ord y m d - 1
               = days_before_year y + day_of_year (is_leap y) m d).
  { unfold ymd2ord, days_before_month, day_of_year. lia. }
  pose proof (ord2ymd_year y (day_of_year (is_leap y) m d)
                (ymd2ord y m d - 1) ltac:(lia) Hdoy Hn) as Hyear.
  cbv zeta in Hyear. unfold ord2ymd, DI400Y, DI100Y, DI4Y. cbv zeta.
  destruct Hyear as [(E & -> & Hyr) | (Hlt & -> & Hyr & Hr & Hleap)].
  - destruct (H365 E) as [-> ->]. rewrite Hyr. reflexivity.
  - rewrite Hyr, Hr, Hleap.
    transitivity (y, (month_day (is_leap y) (day_of_year (is_leap y) m d)).1,
                  (month_day (is_leap y) (day_of_year (is_leap y) m d)).2);
      [|rewrite Hmd; reflexivity].
    unfold month_day. cbv zeta. destruct (_ <? _); reflexivity.
Qed.

End IsoDate.

Section ExplicitDate.
Import Py ICal GenerateIcs Spec.

(** ** C5 *)

(** C5, as the code has it.  On the explicit-date path, for a date
    YYYY-MM-DD of the calendar and a valid time of day, [compute_start]
    returns that calendar date -- the day whose year, month and day are
    those of the text -- at the parsed hour and minute, seconds and
    microseconds zero, carrying the offset the zone gives for that
    wall-clock time -- whatever the clock reading and the weekday set:
    nothing compares the weekday of the result with the set.  The exception
    is a zone with transitions on the first and on the last day that
    [datetime] holds, 0001-01-01 and 9999-12-31, where [localize] raises
    [OverflowError]. *)
Theorem explicit_date_bypass (clock : datetime) (y m d : Z)
    (time_str : string) (hh mm : Z) (weekdays : list WeekdayCode)
    (tz : timezone) :
  valid_ymd y m d -> time_of_day time_str hh mm ->
  ord2ymd (ymd2ord y m d) = (y, m, d)
  /\ (ymd2ord y m d = 1 <-> y = 1 /\ m = 1 /\ d = 1)
  /\ (ymd2ord y m d = MAXORDINAL <-> y = 9999 /\ m = 12 /\ d = 31)
  /\ compute_start clock (Some (iso_date y m d)) time_str weekdays tz =
       if zone_fixed tz
          || ((1 <? ymd2ord y m d) && (ymd2ord y m d <? MAXORDINAL))
       then Ok (mk_datetime (ymd2ord y m d) hh mm 0 0
                  (Some (mk_tzinfo (zone tz)
                     (utcoffset_at tz
                        (mk_datetime (ymd2ord y m d) hh mm 0 0 None)))))
       else Raise OverflowError.
Proof.
  intros Hv Ht. destruct (first_and_last_day y m d Hv) as [H1 H2].
  split; [exact (ord2ymd_ymd2ord y m d Hv)|].
  split; [exact H1|]. split; [exact H2|].
  pose proof Ht as (_ & Hh & Hm).
  assert (E : exists c ds, iso_date y m d = String c ds)
    by (eexists _, _; reflexivity).
  destruct E as (c & ds & E).
  pose proof (strptime_iso_date y m d Hv) as Hd. rewrite E in *.
  rewrite (compute_start_explicit clock c ds time_str hh mm weekdays tz
             (mk_datetime (ymd2ord y m d) 0 0 0 0 None) Ht Hd).
  cbn [ordinal]. apply localize_naive; assumption.
Qed.

(** [--start-date 2025-06-06 --time 18:00 --timezone Asia/Kolkata] with
    [--byday SA]: the start is Friday 2025-06-06 18:00 +05:30. *)
Lemma explicit_date_bypass_witness :
  compute_start wed_2025_06_04_10h (Some "2025-06-06") "18:00" [SA]
    Asia_Kolkata
  = Ok (mk_datetime (ymd2ord 2025 6 6) 18 0 0 0
          (Some (mk_tzinfo "Asia/Kolkata" (5 * 3600 + 30 * 60))))
  /\ weekday (mk_datetime (ymd2ord 2025 6 6) 18 0 0 0 None) = codes FR.
Proof.
  split; [|reflexivity].
  assert (Hv : valid_ymd 2025 6 6)
    by (unfold valid_ymd; vm_compute; repeat split; discriminate).
  assert (Ht : time_of_day "18:00" 18 0)
    by (split; [vm_compute; reflexivity | lia]).
  exact (proj2 (proj2 (proj2 (explicit_date_bypass wed_2025_06_04_10h
                                2025 6 6 "18:00" 18 0 [SA] Asia_Kolkata
                                Hv Ht)))).
Defined.

(** C5 as stated fails on the first day of the calendar: with
    [--start-date 0001-01-01 --time 18:00 --timezone Asia/Kolkata] no
    instant is returned, the call raises [OverflowError]. *)
Lemma explicit_first_day_overflows :
  compute_start wed_2025_06_04_10h (Some "0001-01-01") "18:00" [SA]
    Asia_Kolkata = Raise OverflowError.
Proof. vm_compute. reflexivity. Qed.

End ExplicitDate.

Section Demonstration.
Import Py ICal GenerateIcs TestIcs Spec.

Lemma elem_of_targets_FR (x : Z) : x ∈ targets_of [FR] <-> x = 4.
Proof.
  rewrite elem_of_targets_of. split.
  - intros (w & Hw & <-). apply list_elem_of_singleton in Hw. subst w.
    reflexivity.
  - intros ->. exists FR. split; [apply list_elem_of_here | reflexivity].
Qed.

Lemma at_time_plus_days (dt : datetime) (h m k : Z) :
  at_time (plus_days dt k) h m = plus_days (at_time dt h m) k.
Proof. reflexivity. Qed.

(** ** C9 *)

(** C9.  For every clock reading (a valid [datetime]), the first-occurrence
    computation of [create_pb_hustle_ics] and
    [compute_start(None, "18:00", ["FR"], Asia/Kolkata)] give the same
    outcome: the same instant, or [OverflowError] in both when the Friday
    in question lies past 9999-12-31. *)
Theorem demonstration_agrees (clock : datetime) :
  valid clock ->
  first_friday clock = compute_start clock None "18:00" [FR] Asia_Kolkata.
Proof.
  intros [[Hlo Hhi] Hvt].
  pose proof (compute_start_cases clock "18:00" 18 0 [FR] Asia_Kolkata
                time_of_day_18_00) as H.
  unfold first_friday.
  set (k := if 4 - weekday clock <=? 0 then 4 - weekday clock + 7
            else 4 - weekday clock).
  assert (Hk : 1 <= k <= 7 /\ weekday_of_ordinal (ordinal clock + k) = 4).
  { subst k. unfold weekday, weekday_of_ordinal.
    destruct (Z.leb_spec (4 - (ordinal clock + 6) mod 7) 0);
      split; Z.div_mod_to_equations; lia. }
  destruct Hk as [Hk Hwk].
  assert (Hq : qualifies (at_time clock 18 0) (targets_of [FR]) k).
  { split; [|lia]. apply elem_of_targets_FR. exact Hwk. }
  rewrite timedelta_of_days by lia. cbn [mbind result_bind].
  rewrite add_days by exact Hvt.
  destruct (compute_start clock None "18:00" [FR] Asia_Kolkata) as [r|e].
  - destruct H as (k' & Hk' & -> & Hrep & Hmin & Hq').
    assert (E : k' = k).
    { destruct Hq' as [[Hin _] | [_ Hnone]].
      - apply elem_of_targets_FR in Hin. cbn [at_time ordinal] in Hin.
        destruct (Z.lt_trichotomy k' k) as [Hlt | [Heq | Hgt]];
          [exfalso | exact Heq | exfalso].
        + unfold weekday_of_ordinal in *. Z.div_mod_to_equations. lia.
        + apply (Hmin k); [lia | exact Hq].
      - exfalso. apply (Hnone k); [lia | exact Hq]. }
    subst k'. apply representable_dec in Hrep. rewrite Hrep.
    cbn [mbind result_bind]. rewrite replace_hm00 by lia.
    rewrite at_time_plus_days. reflexivity.
  - destruct H as (-> & k' & Hk' & Hnr & Hbefore).
    assert (Hle : k' <= k).
    { destruct (Z.le_gt_cases k' k) as [|Hgt]; [assumption|].
      exfalso. apply (Hbefore k); [lia | exact Hq]. }
    destruct (Z.ltb_spec 0 (ordinal clock + k)); [|lia].
    destruct (Z.leb_spec (ordinal clock + k) MAXORDINAL) as [Hin|];
      [|reflexivity].
    exfalso. apply Hnr. unfold representable. lia.
Qed.

Lemma demonstration_agrees_witness :
  first_friday fri_2025_06_06_10h
    = compute_start fri_2025_06_06_10h None "18:00" [FR] Asia_Kolkata.
Proof.
  apply (demonstration_agrees fri_2025_06_06_10h).
  unfold valid, valid_date, valid_time. vm_compute.
  repeat split; discriminate.
Defined.

End Demonstration.

(* ===================================================================== *)
(** * The values [compute_start] returns                                  *)
(* ===================================================================== *)

Section ResultValidity.
Import Py ICal GenerateIcs Spec.

Lemma in_range_bounds (lo hi c : ascii) :
  in_range lo hi c = true ->
  (N_of_ascii lo <= N_of_ascii c <= N_of_ascii hi)%N.
Proof.
  unfold in_range. rewrite andb_true_iff, !N.leb_le. tauto.
Qed.

Lemma is_digit_of_bounds (c : ascii) :
  (48 <= N_of_ascii c <= 57)%N -> is_digit c = true.
Proof.
  intros [H1 H2]. unfold is_digit. rewrite andb_true_iff, !N.leb_le. auto.
Qed.

(** The month group of the format yields a month number. *)
Lemma match_m_bounds (f : string) (m : Z) :
  match_m f = Some m -> 1 <= m <= 12.
Proof.
  unfold match_m.
  destruct (list_ascii_of_string f) as [|a [|b [|x rest]]];
    try discriminate.
  - destruct (in_range "1" "9" a) eqn:Ha; [|discriminate].
    apply in_range_bounds in Ha.
    change (N_of_ascii "1") with 49%N in Ha.
    change (N_of_ascii "9") with 57%N in Ha.
    cbn [digits]. rewrite is_digit_of_bounds by lia.
    intros H. injection H as <-. unfold digit_val. lia.
  - destruct ((Ascii.eqb a "1" && in_range "0" "2" b)
              || (Ascii.eqb a "0" && in_range "1" "9" b)) eqn:Hc;
      [|discriminate].
    apply orb_true_iff in Hc.
    destruct Hc as [Hc | Hc]; apply andb_true_iff in Hc;
      destruct Hc as [Ha Hb]; apply Ascii.eqb_eq in Ha; subst a;
      apply in_range_bounds in Hb.
    + change (N_of_ascii "0") with 48%N in Hb.
      change (N_of_ascii "2") with 50%N in Hb.
      cbn [digits]. change (is_digit "1") with true. cbn match.
      rewrite is_digit_of_bounds by lia.
      intros H. injection H as <-. unfold digit_val.
      change (N_of_ascii "1") with 49%N. lia.
    + change (N_of_ascii "1") with 49%N in Hb.
      change (N_of_ascii "9") with 57%N in Hb.
      cbn [digits]. change (is_digit "0") with true. cbn match.
      rewrite is_digit_of_bounds by lia.
      intros H. injection H as <-. unfold digit_val.
      change (N_of_ascii "0") with 48%N. lia.
Qed.

(** A validated year, month and day give an ordinal [datetime] can hold. *)
Lemma ymd2ord_bounds (y m d : Z) :
  MINYEAR <= y <= MAXYEAR -> 1 <= m <= 12 -> 1 <= d <= days_in_month y m ->
  1 <= ymd2ord y m d <= MAXORDINAL.
Proof.
  unfold MINYEAR, MAXYEAR, MAXORDINAL. intros Hy Hm.
  unfold ymd2ord, days_in_month, days_before_month, days_before_year.
  pose proof (is_leap_true y) as Hleap.
  assert (Hcases : m = 1 \/ m = 2 \/ m = 3 \/ m = 4 \/ m = 5 \/ m = 6
                   \/ m = 7 \/ m = 8 \/ m = 9 \/ m = 10 \/ m = 11 \/ m = 12)
    by lia.
  repeat (destruct Hcases as [-> | Hcases]); try subst m;
    repeat match goal with
           | |- context [nth ?n ?l ?d] =>
               let v := eval vm_compute in (nth n l d) in
               change (nth n l d) with v
           | |- context [?a =? ?b] =>
               let v := eval vm_compute in (a =? b) in
               change (a =? b) with v
           | |- context [?a <? ?b] =>
               let v := eval vm_compute in (a <? b) in
               change (a <? b) with v
           end;
    destruct (is_leap y); cbn [andb]; intros Hd;
    try specialize (Hleap eq_refl);
    Z.div_mod_to_equations; lia.
Qed.

Lemma strptime_date_valid (s : string) (d : datetime) :
  strptime_date s = Ok d -> valid d.
Proof.
  unfold strptime_date. intros H.
  destruct (split "-" s) as [|fy [|fm [|fd [|x rest]]]]; try discriminate.
  destruct (match_Y fy) as [y|]; [|discriminate].
  destruct (match_m fm) as [m|] eqn:Hm; [|discriminate].
  destruct (match_d fd) as [dd|]; [|discriminate].
  destruct ((MINYEAR <=? y) && (y <=? MAXYEAR) && (1 <=? dd)
            && (dd <=? days_in_month y m)) eqn:Hc; [|discriminate].
  injection H as <-. rewrite !andb_true_iff, !Z.leb_le in Hc.
  split; [|unfold valid_time; cbn; lia].
  unfold valid_date. cbn [ordinal].
  apply ymd2ord_bounds; [lia | exact (match_m_bounds _ _ Hm) | lia].
Qed.

Lemma empty_date_is_no_date (clock : datetime) (time_str : string)
    (weekdays : list WeekdayCode) (tz : timezone) :
  compute_start clock (Some "") time_str weekdays tz
    = compute_start clock None time_str weekdays tz.
Proof.
  unfold compute_start.
  destruct (mapM int (split ":" time_str)) as [fields|e]; [|reflexivity].
  cbn [mbind result_bind].
  destruct fields as [|hh [|mm [|x rest]]]; reflexivity.
Qed.

(** Whatever [compute_start] returns is a well-formed [datetime]. *)
Lemma compute_start_valid (clock : datetime) (dt_str : option string)
    (time_str : string) (weekdays : list WeekdayCode) (tz : timezone)
    (r : datetime) :
  compute_start clock dt_str time_str weekdays tz = Ok r ->
  valid r /\ second r = 0 /\ microsecond r = 0.
Proof.
  intros H.
  destruct (compute_start_ok_time _ _ _ _ _ _ H) as (hh & mm & Ht).
  pose proof Ht as (_ & Hh & Hm).
  assert (Hnext : compute_start clock None time_str weekdays tz = Ok r ->
                  valid r /\ second r = 0 /\ microsecond r = 0).
  { intros H0.
    pose proof (compute_start_cases clock time_str hh mm weekdays tz Ht) as Hc.
    rewrite H0 in Hc. destruct Hc as (k & Hk & -> & Hrep & _).
    split; [|split; reflexivity]. split.
    - exact Hrep.
    - unfold valid_time. cbn. lia. }
  destruct dt_str as [[|c ds]|].
  - rewrite empty_date_is_no_date in H. exact (Hnext H).
  - destruct (strptime_date (String c ds)) as [d|e] eqn:Hd.
    + rewrite (compute_start_explicit clock c ds time_str hh mm weekdays tz d
                 Ht Hd) in H.
      apply localize_inv in H. subst r.
      destruct (strptime_date_valid _ _ Hd) as [Hdate _].
      split; [|split; reflexivity]. split.
      * exact Hdate.
      * unfold valid_time. cbn. lia.
    + unfold compute_start in H. rewrite (proj1 Ht) in H.
      cbn [mbind result_bind] in H. rewrite Hd in H. discriminate H.
  - exact (Hnext H).
Qed.

(** Whatever [compute_start] returns is a well-formed [datetime]: the date
    lies between 0001-01-01 and 9999-12-31, the time of day is in range,
    and seconds and microseconds are zero. *)
Theorem start_is_well_formed (clock : datetime) (dt_str : option string)
    (time_str : string) (weekdays : list WeekdayCode) (tz : timezone)
    (r : datetime) :
  compute_start clock dt_str time_str weekdays tz = Ok r ->
  valid r /\ second r = 0 /\ microsecond r = 0.
Proof. exact (compute_start_valid clock dt_str time_str weekdays tz r). Qed.

Lemma start_is_well_formed_witness :
  valid fri_2025_06_13_18h
  /\ second fri_2025_06_13_18h = 0 /\ microsecond fri_2025_06_13_18h = 0.
Proof.
  apply (start_is_well_formed fri_2025_06_06_10h None "18:00" [FR]
           Asia_Kolkata fri_2025_06_13_18h).
  vm_compute. reflexivity.
Defined.

End ResultValidity.

(* ===================================================================== *)
(** * The document: creation, append, write                               *)
(* ===================================================================== *)

Section Document.
Import Py ICal GenerateIcs Spec.

Variable pytz_timezone : string -> result timezone.
Variable from_ical : list Byte.byte -> result Component.
Variable to_ical : Component -> result (list Byte.byte).
Variable os : OS.

Lemma new_calendar_eq (tzid : string) :
  new_calendar tzid =
    Ok (mk_Component "VCALENDAR"
          [("PRODID", [vText "-//PB Calendar//"]);
           ("VERSION", [vText "2.0"]);
           ("X-WR-TIMEZONE", [vText tzid])]
          [mk_Component "VTIMEZONE" [("TZID", [vText tzid])]
             [mk_Component "STANDARD"
                [("DTSTART",
                  [vDDDTypes (mk_datetime (ymd2ord 1970 1 1) 0 0 0 0 None)]);
                 ("TZNAME", [vText tzid]);
                 ("TZOFFSETFROM", [vUTCOffset (mk_timedelta 0 19800 0)]);
                 ("TZOFFSETTO", [vUTCOffset (mk_timedelta 0 19800 0)])]
                []]]).
Proof. reflexivity. Qed.

(** Reading an existing file: the read went through and the parser
    returned the document. *)
Lemma load_existing (fs : filesystem) (path tzid : string)
    (content : list Byte.byte) (cal0 : Component) :
  fs !! path = Some content ->
  load_or_create_calendar from_ical os fs path tzid = Ok cal0 ->
  read_fault os path = None /\ from_ical content = Ok cal0.
Proof.
  unfold load_or_create_calendar. intros -> H.
  destruct (read_fault os path); [discriminate H|]. split; [reflexivity|].
  exact H.
Qed.

(** [build] step by step: whenever it returns, each step returned. *)
Lemma build_inv (clock : datetime) (args : Args) (fs : filesystem)
    (cal : Component) :
  build pytz_timezone from_ical os clock args fs = Ok cal ->
  exists tz cal0 dtstart td dtend,
    pytz_timezone (arg_timezone args) = Ok tz
    /\ load_or_create_calendar from_ical os fs (arg_output args)
         (arg_timezone args) = Ok cal0
    /\ compute_start clock (arg_start_date args) (arg_time args)
         (arg_byday args) tz = Ok dtstart
    /\ timedelta_of 0 0 (arg_duration args) = Ok td
    /\ Py.add dtstart td = Ok dtend
    /\ cal = add_component (event_of args dtstart dtend) cal0.
Proof.
  unfold build. intros H.
  destruct (pytz_timezone (arg_timezone args)) as [tz|] eqn:Htz;
    [|discriminate].
  cbn [mbind result_bind] in H.
  destruct (load_or_create_calendar from_ical os fs (arg_output args)
              (arg_timezone args)) as [cal0|] eqn:Hload; [|discriminate].
  cbn [mbind result_bind] in H.
  destruct (compute_start clock (arg_start_date args) (arg_time args)
              (arg_byday args) tz) as [dtstart|] eqn:Hstart; [|discriminate].
  cbn [mbind result_bind] in H.
  destruct (timedelta_of 0 0 (arg_duration args)) as [td|] eqn:Htd;
    [|discriminate].
  cbn [mbind result_bind] in H.
  destruct (Py.add dtstart td) as [dtend|] eqn:Hadd; [|discriminate].
  cbn [mbind result_bind] in H. injection H as <-.
  exists tz, cal0, dtstart, td, dtend. repeat split; assumption.
Qed.

(** A run of [main] that ends well built a document, opened the output
    file, serialized the document and stored the whole text. *)
Lemma main_inv (clock : datetime) (args : Args) (fs fs' : filesystem) :
  main pytz_timezone from_ical to_ical os clock args fs = (fs', Ok tt) ->
  exists cal data,
    build pytz_timezone from_ical os clock args fs = Ok cal
    /\ to_ical cal = Ok data
    /\ fs' = write (arg_output args) data (open_wb (arg_output args) fs).
Proof.
  unfold main. intros H.
  destruct (build pytz_timezone from_ical os clock args fs) as [cal|];
    [|inversion H].
  destruct (open_fault os (arg_output args)); [inversion H|].
  destruct (to_ical cal) as [data|] eqn:Hs; [|inversion H].
  destruct (write_fault os (arg_output args) data) as [[e remains]|];
    [inversion H|].
  destruct (print_fault os); inversion H.
  exists cal, data. repeat split. exact Hs.
Qed.

Lemma open_wb_lookup (path : string) (fs : filesystem) :
  open_wb path fs !! path = Some []
  /\ forall p, p <> path -> open_wb path fs !! p = fs !! p.
Proof.
  unfold open_wb. split; [apply lookup_insert_eq|].
  intros p Hp. apply lookup_insert_ne. congruence.
Qed.

Lemma write_lookup (path : string) (data : list Byte.byte) (fs : filesystem) :
  write path data fs !! path = Some data.
Proof. apply lookup_insert_eq. Qed.

Lemma events_after_append (ev cal : Component) :
  name ev = "VEVENT" ->
  subcomponents_named "VEVENT" (add_component ev cal)
    = (subcomponents_named "VEVENT" cal ++ [ev])%list.
Proof.
  intros Hn. unfold subcomponents_named, add_component.
  cbn [subcomponents]. rewrite List.filter_app. cbn [List.filter].
  rewrite Hn. reflexivity.
Qed.

End Document.

Section DocumentClaims.
Import Py ICal GenerateIcs Spec.

Variable pytz_timezone : string -> result timezone.
Variable from_ical : list Byte.byte -> result Component.
Variable to_ical : Component -> result (list Byte.byte).
Variable os : OS.

(** ** C7 *)

(** C7.  For a path that does not exist and any zone identifier [tzid], the
    adapter returns a fresh calendar: PRODID is the fixed constant, VERSION
    is 2.0, X-WR-TIMEZONE is [tzid], and the only component is one VTIMEZONE
    named [tzid] whose only rule, STANDARD, starts at the naive
    1970-01-01 00:00:00, is named [tzid], and has both offsets at 5 h 30 min
    (19800 s), whatever [tzid] is. *)
Theorem fresh_calendar (fs : filesystem) (path tzid : string) :
  fs !! path = None ->
  exists cal tz_comp std,
    load_or_create_calendar from_ical os fs path tzid = Ok cal
    /\ get "prodid" cal = Some [vText "-//PB Calendar//"]
    /\ get "version" cal = Some [vText "2.0"]
    /\ get "X-WR-TIMEZONE" cal = Some [vText tzid]
    /\ subcomponents cal = [tz_comp]
    /\ name tz_comp = "VTIMEZONE"
    /\ get "tzid" tz_comp = Some [vText tzid]
    /\ subcomponents tz_comp = [std]
    /\ name std = "STANDARD"
    /\ get "dtstart" std
       = Some [vDDDTypes (mk_datetime (ymd2ord 1970 1 1) 0 0 0 0 None)]
    /\ ord2ymd (ymd2ord 1970 1 1) = (1970, 1, 1)
    /\ get "tzname" std = Some [vText tzid]
    /\ get "tzoffsetfrom" std
       = Some [vUTCOffset (mk_timedelta 0 (5 * 3600 + 30 * 60) 0)]
    /\ get "tzoffsetto" std
       = Some [vUTCOffset (mk_timedelta 0 (5 * 3600 + 30 * 60) 0)].
Proof.
  intros Hnone. unfold load_or_create_calendar. rewrite Hnone.
  rewrite new_calendar_eq. do 3 eexists. split; [reflexivity|].
  cbn [subcomponents name]. repeat split.
Qed.

(** ** C8 *)

(** C8, as the code has it.  Once the zone, the document and the start
    instant are obtained, the outcome of [main]'s composition depends on
    where the start plus [duration] minutes falls on the wall clock.  Inside
    the years 1 to 9999 the document is returned with one more component at
    its end, a VEVENT whose DTSTART is the start and whose DTEND is the start
    plus exactly [duration] minutes, with the tzinfo of the start; the
    duration is not checked for sign, and a non-positive one gives an end at
    or before the start.  Outside these years there is no event and no
    document: the composition ends with [OverflowError]. *)
Theorem duration_arithmetic (clock : datetime) (args : Args)
    (fs : filesystem) (tz : timezone) (cal0 : Component)
    (dtstart : datetime) :
  pytz_timezone (arg_timezone args) = Ok tz ->
  load_or_create_calendar from_ical os fs (arg_output args) (arg_timezone args)
    = Ok cal0 ->
  compute_start clock (arg_start_date args) (arg_time args) (arg_byday args)
    tz = Ok dtstart ->
  (in_datetime_range (wall_us dtstart + arg_duration args * 60 * 1000000) ->
   exists cal dtend ev,
     build pytz_timezone from_ical os clock args fs = Ok cal
     /\ name cal = name cal0
     /\ properties cal = properties cal0
     /\ subcomponents cal = (subcomponents cal0 ++ [ev])%list
     /\ name ev = "VEVENT"
     /\ get "dtstart" ev = Some [vDDDTypes dtstart]
     /\ get "dtend" ev = Some [vDDDTypes dtend]
     /\ dt_tzinfo dtend = dt_tzinfo dtstart
     /\ valid dtend
     /\ wall_us dtend = wall_us dtstart + arg_duration args * 60 * 1000000
     /\ (arg_duration args <= 0 -> wall_us dtend <= wall_us dtstart))
  /\ (~ in_datetime_range (wall_us dtstart + arg_duration args * 60 * 1000000)
      -> build pytz_timezone from_ical os clock args fs = Raise OverflowError).
Proof.
  intros Htz Hload Hstart. unfold build.
  rewrite Htz. cbn [mbind result_bind]. rewrite Hload.
  cbn [mbind result_bind]. rewrite Hstart. cbn [mbind result_bind].
  destruct (compute_start_valid _ _ _ _ _ _ Hstart) as (Hvalid & _ & _).
  pose proof (timedelta_of_minutes (arg_duration args)) as Htd.
  destruct (timedelta_of 0 0 (arg_duration args)) as [td|e];
    cbn [mbind result_bind].
  - pose proof (add_total dtstart td) as Htot.
    destruct (Py.add dtstart td) as [dtend|e] eqn:Hadd;
      cbn [mbind result_bind]; rewrite Htd in Htot.
    + split; [|intros Hout; contradiction].
      intros _. destruct (add_spec _ _ _ Hadd) as (Hw & Hz & Hv).
      exists (add_component (event_of args dtstart dtend) cal0), dtend,
        (event_of args dtstart dtend).
      split; [reflexivity|]. split; [reflexivity|]. split; [reflexivity|].
      split; [reflexivity|]. split; [reflexivity|]. split; [reflexivity|].
      split; [reflexivity|]. split; [exact Hz|].
      split; [exact Hv|].
      rewrite Hw, Htd. split; [reflexivity | lia].
    + destruct Htot as [-> Hout]. split; [intros Hin; contradiction|].
      reflexivity.
  - destruct Htd as [-> Hbig]. split; [|reflexivity].
    intros Hin. exfalso. destruct Hvalid as [[Hlo Hhi] (Hh & Hm & Hs & Hus)].
    unfold in_datetime_range, wall_us, MAXORDINAL in *. lia.
Qed.

(** ** C3 *)

(** C3, as the code has it.  [main] opens the output file for writing, which
    creates it or cuts it to length zero, before it asks for the serialized
    document.  When the file opens and the serializer fails after the
    document was built in memory, the run ends with that failure and the
    output file is left empty: its former content and the in-memory update
    are both lost.  No other file is touched.  When the file does not open,
    the run ends with that failure and no file is touched. *)
Theorem failed_serialization_leaves_empty_file (clock : datetime)
    (args : Args) (fs : filesystem) (cal : Component) (e : exception) :
  build pytz_timezone from_ical os clock args fs = Ok cal ->
  to_ical cal = Raise e ->
  match open_fault os (arg_output args) with
  | None =>
      exists fs',
        main pytz_timezone from_ical to_ical os clock args fs = (fs', Raise e)
        /\ fs' !! arg_output args = Some []
        /\ forall p, p <> arg_output args -> fs' !! p = fs !! p
  | Some e' =>
      main pytz_timezone from_ical to_ical os clock args fs = (fs, Raise e')
  end.
Proof.
  intros Hb Hs. unfold main. rewrite Hb.
  destruct (open_fault os (arg_output args)); [reflexivity|].
  exists (open_wb (arg_output args) fs). rewrite Hs.
  split; [reflexivity|]. apply open_wb_lookup.
Qed.

(** ** C6 *)

(** C6.  (1) When the output file exists and parses to a document, the
    document [main] serializes has the name and all the properties of the
    parsed one -- PRODID, VERSION and X-WR-TIMEZONE among them -- and its
    components are the parsed ones, in order and unchanged, followed by one
    new VEVENT.  (2) A first run on a path that does not exist, followed by
    a second run on the same path with other arguments.  The parser reads
    the text the first run stored and returns a document whose VEVENT
    components stand in a relation [R] to those of the document the first
    run built, one by one ([R] is what the format keeps of an event; for a
    parser that gives back the same components it is equality).  Then the
    document the second run stores has exactly two VEVENT components: the
    first is the one the parser returned for the event of the first run,
    [R]-related to it and not altered by the second run, the second is the
    new event; all other properties and components are those the parser
    returned. *)
Theorem append_keeps_document (clock1 clock2 : datetime) (args1 args2 : Args)
    (fs : filesystem) :
  (forall content cal0 cal,
     fs !! arg_output args1 = Some content ->
     from_ical content = Ok cal0 ->
     build pytz_timezone from_ical os clock1 args1 fs = Ok cal ->
     name cal = name cal0
     /\ properties cal = properties cal0
     /\ get "PRODID" cal = get "PRODID" cal0
     /\ get "VERSION" cal = get "VERSION" cal0
     /\ get "X-WR-TIMEZONE" cal = get "X-WR-TIMEZONE" cal0
     /\ exists ev, name ev = "VEVENT"
          /\ subcomponents cal = (subcomponents cal0 ++ [ev])%list)
  /\ (forall (R : Component -> Component -> Prop) fs1 fs2 cal1 data1 cal1',
        fs !! arg_output args1 = None ->
        arg_output args2 = arg_output args1 ->
        main pytz_timezone from_ical to_ical os clock1 args1 fs
          = (fs1, Ok tt) ->
        build pytz_timezone from_ical os clock1 args1 fs = Ok cal1 ->
        to_ical cal1 = Ok data1 ->
        from_ical data1 = Ok cal1' ->
        Forall2 R (subcomponents_named "VEVENT" cal1)
          (subcomponents_named "VEVENT" cal1') ->
        main pytz_timezone from_ical to_ical os clock2 args2 fs1
          = (fs2, Ok tt) ->
        exists cal2 data2 ev1 ev1' ev2,
          build pytz_timezone from_ical os clock2 args2 fs1 = Ok cal2
          /\ fs2 !! arg_output args1 = Some data2
          /\ to_ical cal2 = Ok data2
          /\ subcomponents_named "VEVENT" cal1 = [ev1]
          /\ subcomponents_named "VEVENT" cal2 = [ev1'; ev2]
          /\ R ev1 ev1'
          /\ name ev2 = "VEVENT"
          /\ get "summary" ev2 = Some [vText (arg_name args2)]
          /\ properties cal2 = properties cal1'
          /\ subcomponents cal2 = (subcomponents cal1' ++ [ev2])%list).
Proof.
  split.
  - intros content cal0 cal Hfile Hparse Hb.
    destruct (build_inv _ _ _ _ _ _ _ Hb)
      as (tz & cal0' & dtstart & td & dtend & _ & Hload & _ & _ & _ & ->).
    destruct (load_existing _ _ _ _ _ _ _ Hfile Hload) as [_ Hparse'].
    rewrite Hparse in Hparse'. injection Hparse' as <-. unfold get.
    cbn [add_component name properties subcomponents].
    repeat split. exists (event_of args1 dtstart dtend).
    split; reflexivity.
  - intros R fs1 fs2 cal1 data1 cal1' Hnone Hout Hm1 Hb1 Hs1 Hrt HR Hm2.
    destruct (main_inv _ _ _ _ _ _ _ _ Hm1)
      as (cal1x & data1x & Hb1' & Hs1' & ->).
    rewrite Hb1 in Hb1'. injection Hb1' as <-.
    rewrite Hs1 in Hs1'. injection Hs1' as <-.
    destruct (main_inv _ _ _ _ _ _ _ _ Hm2) as (cal2 & data2 & Hb2 & Hs2 & ->).
    destruct (build_inv _ _ _ _ _ _ _ Hb1)
      as (tz1 & cal0 & s1 & td1 & e1 & _ & Hload1 & _ & _ & _ & Hcal1).
    unfold load_or_create_calendar in Hload1. rewrite Hnone in Hload1.
    rewrite new_calendar_eq in Hload1. injection Hload1 as <-.
    destruct (build_inv _ _ _ _ _ _ _ Hb2)
      as (tz2 & cal0' & s2 & td2 & e2 & _ & Hload2 & _ & _ & _ & Hcal2).
    rewrite Hout in Hload2.
    destruct (load_existing _ _ _ _ _ _ _ (write_lookup _ _ _) Hload2)
      as [_ Hparse2].
    rewrite Hrt in Hparse2. injection Hparse2 as <-.
    assert (Hev1 : subcomponents_named "VEVENT" cal1 = [event_of args1 s1 e1]).
    { subst cal1. reflexivity. }
    rewrite Hev1 in HR.
    inversion HR as [|a ev1' la lb Hab Hrest [Ha Hla] Hlb]. subst a la.
    inversion Hrest. subst lb.
    exists cal2, data2, (event_of args1 s1 e1), ev1', (event_of args2 s2 e2).
    split; [exact Hb2|].
    split; [rewrite <- Hout; apply write_lookup|].
    split; [exact Hs2|]. subst cal2.
    rewrite events_after_append by reflexivity. rewrite <- Hlb.
    split; [exact Hev1|]. repeat split. exact Hab.
Qed.

End DocumentClaims.

(* ===================================================================== *)
(** * The document claims on concrete runs                                *)
(* ===================================================================== *)

Section Runs.
Import Py ICal GenerateIcs Spec.

Lemma fresh_calendar_witness :
  (∅ : filesystem) !! "pb_calendar.ics" = None
  /\ exists cal tz_comp std,
       load_or_create_calendar example_from_ical no_faults ∅
         "pb_calendar.ics" "Europe/Berlin" = Ok cal
       /\ get "X-WR-TIMEZONE" cal = Some [vText "Europe/Berlin"]
       /\ subcomponents cal = [tz_comp]
       /\ subcomponents tz_comp = [std]
       /\ get "tzoffsetto" std
          = Some [vUTCOffset (mk_timedelta 0 (5 * 3600 + 30 * 60) 0)].
Proof.
  split; [apply lookup_empty|].
  destruct (fresh_calendar example_from_ical no_faults ∅ "pb_calendar.ics"
              "Europe/Berlin" (lookup_empty _))
    as (cal & tz_comp & std & H1 & _ & _ & H4 & H5 & _ & _ & H8 & _ & _ & _
        & _ & _ & H14).
  exists cal, tz_comp, std. repeat split; assumption.
Defined.

Lemma duration_arithmetic_witness :
  in_datetime_range
    (wall_us fri_2025_06_06_18h + arg_duration args_hustle * 60 * 1000000)
  /\ exists cal dtend ev,
       build one_zone example_from_ical no_faults wed_2025_06_04_10h
         args_hustle ∅ = Ok cal
       /\ name cal = name doc_fresh
       /\ properties cal = properties doc_fresh
       /\ subcomponents cal = (subcomponents doc_fresh ++ [ev])%list
       /\ name ev = "VEVENT"
       /\ get "dtstart" ev = Some [vDDDTypes fri_2025_06_06_18h]
       /\ get "dtend" ev = Some [vDDDTypes dtend]
       /\ dt_tzinfo dtend = dt_tzinfo fri_2025_06_06_18h
       /\ valid dtend
       /\ wall_us dtend
          = wall_us fri_2025_06_06_18h
            + arg_duration args_hustle * 60 * 1000000
       /\ (arg_duration args_hustle <= 0 ->
           wall_us dtend <= wall_us fri_2025_06_06_18h).
Proof.
  assert (Hin : in_datetime_range
                  (wall_us fri_2025_06_06_18h
                   + arg_duration args_hustle * 60 * 1000000))
    by (vm_compute; split; [discriminate | reflexivity]).
  split; [exact Hin|].
  assert (Hz : one_zone (arg_timezone args_hustle) = Ok Asia_Kolkata)
    by reflexivity.
  assert (Hl : load_or_create_calendar example_from_ical no_faults ∅
                 (arg_output args_hustle) (arg_timezone args_hustle)
               = Ok doc_fresh) by (vm_compute; reflexivity).
  assert (Hc : compute_start wed_2025_06_04_10h (arg_start_date args_hustle)
                 (arg_time args_hustle) (arg_byday args_hustle) Asia_Kolkata
               = Ok fri_2025_06_06_18h) by (vm_compute; reflexivity).
  exact (proj1 (duration_arithmetic one_zone example_from_ical no_faults
                  wed_2025_06_04_10h args_hustle ∅ Asia_Kolkata doc_fresh
                  fri_2025_06_06_18h Hz Hl Hc) Hin).
Defined.

(** C8 as stated fails.  A duration of -1100000000 minutes, some 2091 years
    back from June 2025, is an integer the command line accepts; the end
    would fall before the year 1, and the composition ends with
    [OverflowError] instead of an end before the start. *)
Lemma duration_before_year_one_overflows :
  arg_duration args_before_year_one <= 0
  /\ compute_start wed_2025_06_04_10h (arg_start_date args_before_year_one)
       (arg_time args_before_year_one) (arg_byday args_before_year_one)
       Asia_Kolkata = Ok fri_2025_06_06_18h
  /\ build one_zone example_from_ical no_faults wed_2025_06_04_10h
       args_before_year_one ∅ = Raise OverflowError
  /\ main one_zone example_from_ical example_to_ical no_faults
       wed_2025_06_04_10h args_before_year_one ∅ = (∅, Raise OverflowError).
Proof.
  split; [vm_compute; discriminate|].
  split; [vm_compute; reflexivity|].
  split; vm_compute; reflexivity.
Qed.

Lemma failed_serialization_leaves_empty_file_witness :
  exists fs',
    main one_zone example_from_ical serializer_failing no_faults
      fri_2025_06_06_10h args_review fs_after_hustle = (fs', Raise ValueError)
    /\ fs' !! arg_output args_review = Some []
    /\ forall p, p <> arg_output args_review ->
         fs' !! p = fs_after_hustle !! p.
Proof.
  refine (failed_serialization_leaves_empty_file one_zone example_from_ical
            serializer_failing no_faults fri_2025_06_06_10h args_review
            fs_after_hustle _ ValueError _ eq_refl).
  vm_compute. reflexivity.
Defined.

(** C3 as stated fails.  The output file holds the document of an earlier
    run; it is read and parsed, the new document is built, the serializer
    fails: the run ends with the failure and the file, which held text
    before, is empty afterwards. *)
Lemma failed_run_truncates_file :
  fs_after_hustle !! "pb_calendar.ics" = Some data_hustle
  /\ data_hustle <> []
  /\ (exists cal,
        build one_zone example_from_ical no_faults fri_2025_06_06_10h
          args_review fs_after_hustle = Ok cal)
  /\ snd (main one_zone example_from_ical serializer_failing no_faults
            fri_2025_06_06_10h args_review fs_after_hustle)
     = Raise ValueError
  /\ fst (main one_zone example_from_ical serializer_failing no_faults
            fri_2025_06_06_10h args_review fs_after_hustle)
       !! "pb_calendar.ics" = Some []
  /\ fst (main one_zone example_from_ical serializer_failing no_faults
            fri_2025_06_06_10h args_review fs_after_hustle)
     <> fs_after_hustle.
Proof.
  split; [vm_compute; reflexivity|].
  split; [vm_compute; discriminate|].
  split; [eexists; vm_compute; reflexivity|].
  split; [vm_compute; reflexivity|].
  assert (H : fst (main one_zone example_from_ical serializer_failing
                     no_faults fri_2025_06_06_10h args_review
                     fs_after_hustle)
              !! "pb_calendar.ics" = Some []) by (vm_compute; reflexivity).
  split; [exact H|]. intros E. rewrite E in H. vm_compute in H.
  discriminate H.
Qed.

(** A run can fail after the file is complete: when the console cannot
    show the last line, the run ends with [UnicodeEncodeError] and the
    output file holds the whole new document. *)
Lemma console_failure_after_write :
  main one_zone example_from_ical example_to_ical console_fault
    wed_2025_06_04_10h args_hustle ∅
  = (fs_after_hustle, Raise UnicodeEncodeError).
Proof. vm_compute. reflexivity. Qed.

(** The example format keeps the lines of the event of the first run. *)
Lemma hustle_events_same_lines :
  Forall2 same_lines (subcomponents_named "VEVENT" doc_hustle)
    (subcomponents_named "VEVENT" doc_hustle_read).
Proof.
  assert (E1 : exists ev, subcomponents_named "VEVENT" doc_hustle = [ev]
                          /\ exists ev', subcomponents_named "VEVENT"
                                           doc_hustle_read = [ev']
                                         /\ component_lines ev
                                            = component_lines ev').
  { eexists. split; [vm_compute; reflexivity|].
    eexists. split; [vm_compute; reflexivity|]. vm_compute. reflexivity. }
  destruct E1 as (ev & -> & ev' & -> & Hl).
  constructor; [exact Hl | constructor].
Qed.

Lemma append_keeps_document_witness :
  exists cal2 data2 ev1 ev1' ev2,
    build one_zone example_from_ical no_faults fri_2025_06_06_10h args_review
      fs_after_hustle = Ok cal2
    /\ fs_after_review !! arg_output args_hustle = Some data2
    /\ example_to_ical cal2 = Ok data2
    /\ subcomponents_named "VEVENT" doc_hustle = [ev1]
    /\ subcomponents_named "VEVENT" cal2 = [ev1'; ev2]
    /\ same_lines ev1 ev1'
    /\ name ev2 = "VEVENT"
    /\ get "summary" ev2 = Some [vText (arg_name args_review)]
    /\ properties cal2 = properties doc_hustle_read
    /\ subcomponents cal2 = (subcomponents doc_hustle_read ++ [ev2])%list.
Proof.
  apply (proj2 (append_keeps_document one_zone example_from_ical
                  example_to_ical no_faults wed_2025_06_04_10h
                  fri_2025_06_06_10h args_hustle args_review ∅)
           same_lines fs_after_hustle fs_after_review doc_hustle
           data_hustle doc_hustle_read);
    try exact hustle_events_same_lines; vm_compute; reflexivity.
Defined.

End Runs.

(* ===================================================================== *)
(** * Further properties of [compute_start]                               *)
(* ===================================================================== *)

Section ComputeStartErrors.
Import Py ICal GenerateIcs Spec.

Lemma int_raises (s : string) (e : exception) :
  int s = Raise e -> e = ValueError.
Proof.
  unfold int. destruct (match strip (list_ascii_of_string s) with
                        | [] => _ | _ :: _ => _ end);
    [destruct (_ <? _)%nat|]; intros H; congruence.
Qed.

Lemma mapM_int_raises (l : list string) (e : exception) :
  mapM int l = Raise e -> e = ValueError.
Proof.
  revert e. induction l as [|x l IH]; intros e; cbn; [discriminate|].
  destruct (int x) as [n|e'] eqn:Hx; cbn.
  - destruct (mapM int l) as [ns|e'']; cbn; [discriminate|].
    intros H. apply IH. exact H.
  - intros H. injection H as <-. exact (int_raises _ _ Hx).
Qed.

Lemma strptime_date_raises (s : string) (e : exception) :
  strptime_date s = Raise e -> e = ValueError.
Proof.
  unfold strptime_date. intros H.
  repeat match type of H with
         | context [match ?x with _ => _ end] => destruct x; try congruence
         end.
Qed.

(** [replace] on an hour or a minute out of range, the seconds and
    microseconds being kept or set to values a C [int] holds: the
    conversion to C [int] comes first. *)
Lemma replace_bad_time (dt : datetime) (h m : Z) (s us : option Z) :
  c_int (default 0 s) = true -> c_int (default 0 us) = true ->
  ~ (0 <= h < 24 /\ 0 <= m < 60) ->
  replace dt h m s us =
    if c_int h && c_int m then Raise ValueError else Raise OverflowError.
Proof.
  intros Hs Hus Hbad. unfold replace. rewrite Hs, Hus, !andb_true_r.
  destruct (c_int h && c_int m); [|reflexivity].
  destruct (Z.leb_spec 0 h), (Z.ltb_spec h 24), (Z.leb_spec 0 m),
    (Z.ltb_spec m 60); cbn [andb]; try reflexivity.
  exfalso. apply Hbad. lia.
Qed.

(** A time text that is not a time of day: the call raises, and it raises
    [OverflowError] only for an hour or a minute beyond a C [int], met
    after the date text, if there is one, was accepted. *)
Lemma bad_time_outcome (clock : datetime) (dt_str : option string)
    (time_str : string) (weekdays : list WeekdayCode) (tz : timezone) :
  (forall hh mm, ~ time_of_day time_str hh mm) ->
  compute_start clock dt_str time_str weekdays tz = Raise ValueError
  \/ (compute_start clock dt_str time_str weekdays tz = Raise OverflowError
      /\ (exists hh mm,
            mapM int (split ":" time_str) = Ok [hh; mm]
            /\ c_int hh && c_int mm = false)
      /\ forall c ds, dt_str = Some (String c ds) ->
           exists d, strptime_date (String c ds) = Ok d).
Proof.
  intros Hbad. unfold compute_start.
  destruct (mapM int (split ":" time_str)) as [fields|e] eqn:Hf;
    cbn [mbind result_bind];
    [|left; f_equal; exact (mapM_int_raises _ _ Hf)].
  destruct fields as [|hh [|mm [|x rest]]]; try (left; reflexivity).
  assert (Hr : ~ (0 <= hh < 24 /\ 0 <= mm < 60)).
  { intros [Hh Hm]. apply (Hbad hh mm). split; [exact Hf | auto]. }
  destruct dt_str as [[|c ds]|].
  - rewrite replace_bad_time by (reflexivity || exact Hr).
    destruct (c_int hh && c_int mm) eqn:Hc; [left; reflexivity|].
    right. split; [reflexivity|]. split; [exists hh, mm; auto|].
    intros c ds H. discriminate H.
  - destruct (strptime_date (String c ds)) as [d|e] eqn:Hd;
      cbn [mbind result_bind];
      [|left; f_equal; exact (strptime_date_raises _ _ Hd)].
    rewrite replace_bad_time by (reflexivity || exact Hr).
    destruct (c_int hh && c_int mm) eqn:Hc; [left; reflexivity|].
    right. split; [reflexivity|]. split; [exists hh, mm; auto|].
    intros c' ds' H. injection H as <- <-. exists d. exact Hd.
  - rewrite replace_bad_time by (reflexivity || exact Hr).
    destruct (c_int hh && c_int mm) eqn:Hc; [left; reflexivity|].
    right. split; [reflexivity|]. split; [exists hh, mm; auto|].
    intros c ds H. discriminate H.
Qed.

(** The time text is read first, on both paths: when it is not two integers
    separated by a colon, with the hour in 0..23 and the minute in 0..59,
    [compute_start] does not return, whatever the clock, the date text, the
    weekday set and the zone.  It raises [ValueError]; or, when the text is
    two integers of which one does not fit a C [int], [OverflowError]. *)
Theorem bad_time_is_rejected (clock : datetime) (dt_str : option string)
    (time_str : string) (weekdays : list WeekdayCode) (tz : timezone) :
  (forall hh mm, ~ time_of_day time_str hh mm) ->
  compute_start clock dt_str time_str weekdays tz = Raise ValueError
  \/ (compute_start clock dt_str time_str weekdays tz = Raise OverflowError
      /\ exists hh mm,
           mapM int (split ":" time_str) = Ok [hh; mm]
           /\ ~ (- 2 ^ 31 <= hh < 2 ^ 31 /\ - 2 ^ 31 <= mm < 2 ^ 31)).
Proof.
  intros Hbad.
  destruct (bad_time_outcome clock dt_str time_str weekdays tz Hbad)
    as [H | (H & (hh & mm & Hf & Hc) & _)]; [left; exact H|].
  right. split; [exact H|]. exists hh, mm. split; [exact Hf|].
  intros [Hh Hm]. unfold c_int in Hc.
  destruct (Z.leb_spec (- 2 ^ 31) hh), (Z.ltb_spec hh (2 ^ 31)),
    (Z.leb_spec (- 2 ^ 31) mm), (Z.ltb_spec mm (2 ^ 31));
    cbn [andb] in Hc; try discriminate Hc; lia.
Qed.

Lemma bad_time_is_rejected_witness :
  (compute_start fri_2025_06_06_10h None "24:00" [FR] Asia_Kolkata
     = Raise ValueError
   \/ (compute_start fri_2025_06_06_10h None "24:00" [FR] Asia_Kolkata
         = Raise OverflowError
       /\ exists hh mm,
            mapM int (split ":" "24:00") = Ok [hh; mm]
            /\ ~ (- 2 ^ 31 <= hh < 2 ^ 31 /\ - 2 ^ 31 <= mm < 2 ^ 31)))
  /\ (compute_start fri_2025_06_06_10h (Some "2025-06-06") "18:4294967296"
        [FR] Asia_Kolkata = Raise ValueError
      \/ (compute_start fri_2025_06_06_10h (Some "2025-06-06")
            "18:4294967296" [FR] Asia_Kolkata = Raise OverflowError
          /\ exists hh mm,
               mapM int (split ":" "18:4294967296") = Ok [hh; mm]
               /\ ~ (- 2 ^ 31 <= hh < 2 ^ 31 /\ - 2 ^ 31 <= mm < 2 ^ 31))).
Proof.
  split.
  - apply (bad_time_is_rejected fri_2025_06_06_10h None "24:00" [FR]
             Asia_Kolkata).
    intros hh mm [H [Hh _]]. vm_compute in H. injection H as <- <-. lia.
  - apply (bad_time_is_rejected fri_2025_06_06_10h (Some "2025-06-06")
             "18:4294967296" [FR] Asia_Kolkata).
    intros hh mm [H [_ Hm]]. vm_compute in H. injection H as <- <-. lia.
Defined.

(** The two outcomes both occur. *)
Lemma bad_time_both_errors :
  compute_start fri_2025_06_06_10h None "24:00" [FR] Asia_Kolkata
    = Raise ValueError
  /\ compute_start fri_2025_06_06_10h None "1800" [FR] Asia_Kolkata
     = Raise ValueError
  /\ compute_start fri_2025_06_06_10h (Some "2025-06-06") "18:4294967296"
       [FR] Asia_Kolkata = Raise OverflowError.
Proof. repeat split; vm_compute; reflexivity. Qed.

Lemma time_of_day_dec (time_str : string) :
  (exists hh mm, time_of_day time_str hh mm)
  \/ (forall hh mm, ~ time_of_day time_str hh mm).
Proof.
  unfold time_of_day.
  destruct (mapM int (split ":" time_str)) as [fields|e];
    [|right; intros hh mm [H _]; discriminate H].
  destruct fields as [|hh [|mm [|x rest]]];
    try (right; intros h m [H _]; discriminate H).
  destruct (Z.leb_spec 0 hh), (Z.ltb_spec hh 24), (Z.leb_spec 0 mm),
    (Z.ltb_spec mm 60);
    try (right; intros h m [Hp [? ?]]; injection Hp as <- <-; lia).
  left. exists hh, mm. split; [reflexivity | lia].
Qed.

(** The explicit-date path in every case.  It returns exactly when the time
    text is a valid time of day, the date text is a date [strptime] accepts
    and the zone takes that date: a zone with transitions does not take the
    first and the last day of [datetime].  The result is then that date at
    that time of day with the zone's tzinfo.  A failure is a [ValueError]
    due to one of the two texts, or an [OverflowError]: for an hour or a
    minute beyond a C [int], or for a date the zone does not take. *)
Theorem explicit_path_outcome (clock : datetime) (c : ascii) (ds : string)
    (time_str : string) (weekdays : list WeekdayCode) (tz : timezone) :
  match compute_start clock (Some (String c ds)) time_str weekdays tz with
  | Ok r =>
      exists hh mm d,
        time_of_day time_str hh mm
        /\ strptime_date (String c ds) = Ok d
        /\ r = mk_datetime (ordinal d) hh mm 0 0
                 (Some (mk_tzinfo (zone tz)
                          (utcoffset_at tz
                             (mk_datetime (ordinal d) hh mm 0 0 None))))
        /\ (zone_fixed tz = true \/ 1 < ordinal d < MAXORDINAL)
  | Raise e =>
      (e = ValueError
       /\ ((forall hh mm, ~ time_of_day time_str hh mm)
           \/ strptime_date (String c ds) = Raise ValueError))
      \/ (e = OverflowError
          /\ exists d, strptime_date (String c ds) = Ok d
             /\ ((exists hh mm,
                    mapM int (split ":" time_str) = Ok [hh; mm]
                    /\ c_int hh && c_int mm = false)
                 \/ ((exists hh mm, time_of_day time_str hh mm)
                     /\ zone_fixed tz = false
                     /\ (ordinal d = 1 \/ ordinal d = MAXORDINAL))))
  end.
Proof.
  destruct (time_of_day_dec time_str) as [(hh & mm & Ht) | Hbad].
  - destruct (strptime_date (String c ds)) as [d|e] eqn:Hd.
    + rewrite (compute_start_explicit clock c ds time_str hh mm weekdays tz d
                 Ht Hd).
      destruct (strptime_date_valid _ _ Hd) as [[Hlo Hhi] _].
      rewrite localize_naive by apply Ht.
      destruct (zone_fixed tz) eqn:Hfix; cbn [orb].
      * exists hh, mm, d. split; [exact Ht|]. split; [reflexivity|].
        split; [reflexivity|]. left. reflexivity.
      * destruct (Z.ltb_spec 1 (ordinal d)),
          (Z.ltb_spec (ordinal d) MAXORDINAL); cbn [andb].
        -- exists hh, mm, d. split; [exact Ht|]. split; [reflexivity|].
           split; [reflexivity|]. right. lia.
        -- right. split; [reflexivity|]. exists d. split; [reflexivity|].
           right. split; [exists hh, mm; exact Ht|]. split; [reflexivity|].
           right. lia.
        -- right. split; [reflexivity|]. exists d. split; [reflexivity|].
           right. split; [exists hh, mm; exact Ht|]. split; [reflexivity|].
           left. lia.
        -- right. split; [reflexivity|]. exists d. split; [reflexivity|].
           right. split; [exists hh, mm; exact Ht|]. split; [reflexivity|].
           left. lia.
    + pose proof (strptime_date_raises _ _ Hd) as ->.
      unfold compute_start. rewrite (proj1 Ht). cbn [mbind result_bind].
      rewrite Hd. cbn [mbind result_bind]. left. split; [reflexivity|].
      right. reflexivity.
  - destruct (bad_time_outcome clock (Some (String c ds)) time_str weekdays
                tz Hbad) as [-> | (-> & Hover & Hdate)].
    + left. split; [reflexivity|]. left. exact Hbad.
    + right. split; [reflexivity|].
      destruct (Hdate c ds eq_refl) as [d Hd]. exists d.
      split; [exact Hd|]. left. exact Hover.
Qed.

End ComputeStartErrors.

Section ComputeStartInvariance.
Import Py ICal GenerateIcs Spec.

Lemma replace_same_day (clock clock' : datetime) (h m : Z) :
  ordinal clock = ordinal clock' -> dt_tzinfo clock = dt_tzinfo clock' ->
  replace clock h m (Some 0) (Some 0) = replace clock' h m (Some 0) (Some 0).
Proof. intros Ho Hz. unfold replace. cbn [default]. rewrite Ho, Hz. reflexivity. Qed.

(** Only the date and the tzinfo of the clock reading matter: two runs on
    the same day, at whatever times of that day, compute the same start. *)
Theorem time_of_run_is_irrelevant (clock clock' : datetime)
    (dt_str : option string) (time_str : string)
    (weekdays : list WeekdayCode) (tz : timezone) :
  ordinal clock = ordinal clock' -> dt_tzinfo clock = dt_tzinfo clock' ->
  compute_start clock dt_str time_str weekdays tz
    = compute_start clock' dt_str time_str weekdays tz.
Proof.
  intros Ho Hz. unfold compute_start.
  destruct (mapM int (split ":" time_str)) as [fields|e]; [|reflexivity].
  cbn [mbind result_bind].
  destruct fields as [|hh [|mm [|x rest]]]; try reflexivity.
  destruct dt_str as [[|c ds]|]; try reflexivity;
    rewrite (replace_same_day clock clock' hh mm Ho Hz); reflexivity.
Qed.

Lemma time_of_run_is_irrelevant_witness :
  compute_start fri_2025_06_06_10h None "18:00" [FR] Asia_Kolkata
    = compute_start
        (mk_datetime (ymd2ord 2025 6 6) 23 59 59 999999 (Some IST))
        None "18:00" [FR] Asia_Kolkata.
Proof.
  apply (time_of_run_is_irrelevant fri_2025_06_06_10h
           (mk_datetime (ymd2ord 2025 6 6) 23 59 59 999999 (Some IST))
           None "18:00" [FR] Asia_Kolkata); reflexivity.
Defined.

Lemma targets_of_same_days (ws ws' : list WeekdayCode) :
  same_days ws ws' -> targets_of ws = targets_of ws'.
Proof.
  intros H. apply set_eq. intros x. rewrite !elem_of_targets_of.
  split; intros (w & Hw & E); exists w; split; auto; apply H; exact Hw.
Qed.

(** The weekday codes are used as a set: their order and repetitions in
    [--byday] do not change the computed start. *)
Theorem order_of_days_is_irrelevant (clock : datetime)
    (dt_str : option string) (time_str : string)
    (ws ws' : list WeekdayCode) (tz : timezone) :
  same_days ws ws' ->
  compute_start clock dt_str time_str ws tz
    = compute_start clock dt_str time_str ws' tz.
Proof.
  intros H. unfold compute_start.
  rewrite (targets_of_same_days ws ws' H). reflexivity.
Qed.

Lemma order_of_days_is_irrelevant_witness :
  compute_start wed_2025_06_04_10h None "18:00" [MO; FR] Asia_Kolkata
    = compute_start wed_2025_06_04_10h None "18:00" [FR; MO; FR] Asia_Kolkata.
Proof.
  apply (order_of_days_is_irrelevant wed_2025_06_04_10h None "18:00"
           [MO; FR] [FR; MO; FR] Asia_Kolkata).
  intros w. rewrite !list_elem_of_In. cbn. tauto.
Defined.

End ComputeStartInvariance.

Section LeastOffset.
Import Py ICal GenerateIcs Spec.

Variables (clock : datetime) (time_str : string) (hh mm : Z).
Variables (weekdays : list WeekdayCode) (tz : timezone).
Hypothesis time_ok : time_of_day time_str hh mm.
Hypothesis clock_date : 1 <= ordinal clock.

(** The start is fixed by the least qualifying offset. *)
Lemma compute_start_least (k : Z) :
  1 <= k <= 7 ->
  qualifies (at_time clock hh mm) (targets_of weekdays) k ->
  (forall j, 1 <= j < k ->
     ~ qualifies (at_time clock hh mm) (targets_of weekdays) j) ->
  compute_start clock None time_str weekdays tz =
    if ordinal clock + k <=? MAXORDINAL
    then Ok (plus_days (at_time clock hh mm) k) else Raise OverflowError.
Proof.
  intros Hk Hq Hmin.
  pose proof (compute_start_cases clock time_str hh mm weekdays tz time_ok)
    as H.
  destruct (compute_start clock None time_str weekdays tz) as [r|e].
  - destruct H as (k' & Hk' & -> & Hrep & Hmin' & Hq').
    assert (E : k' = k).
    { destruct (Z.lt_trichotomy k' k) as [Hlt | [Heq | Hgt]];
        [exfalso | exact Heq | exfalso].
      - destruct Hq' as [Hq' | [-> _]]; [|lia].
        apply (Hmin k'); [lia | exact Hq'].
      - apply (Hmin' k); [lia | exact Hq]. }
    subst k'. destruct (Z.leb_spec (ordinal clock + k) MAXORDINAL);
      [reflexivity|]. unfold representable in Hrep. lia.
  - destruct H as (-> & k0 & Hk0 & Hnr & Hbefore).
    assert (k0 <= k).
    { destruct (Z.le_gt_cases k0 k) as [|Hgt]; [assumption|].
      exfalso. apply (Hbefore k); [lia | exact Hq]. }
    destruct (Z.leb_spec (ordinal clock + k) MAXORDINAL); [|reflexivity].
    exfalso. apply Hnr. unfold representable. lia.
Qed.

(** Without a qualifying offset the start is one week ahead. *)
Lemma compute_start_none :
  (forall j, 1 <= j <= 7 ->
     ~ qualifies (at_time clock hh mm) (targets_of weekdays) j) ->
  compute_start clock None time_str weekdays tz =
    if ordinal clock + 7 <=? MAXORDINAL
    then Ok (plus_days (at_time clock hh mm) 7) else Raise OverflowError.
Proof.
  intros Hnone.
  pose proof (compute_start_cases clock time_str hh mm weekdays tz time_ok)
    as H.
  destruct (compute_start clock None time_str weekdays tz) as [r|e].
  - destruct H as (k & Hk & -> & Hrep & _ & [Hq | [-> _]]).
    + exfalso. apply (Hnone k); [lia | exact Hq].
    + destruct (Z.leb_spec (ordinal clock + 7) MAXORDINAL); [reflexivity|].
      unfold representable in Hrep. lia.
  - destruct H as (-> & k0 & Hk0 & Hnr & _).
    destruct (Z.leb_spec (ordinal clock + 7) MAXORDINAL); [|reflexivity].
    exfalso. apply Hnr. unfold representable. lia.
Qed.

End LeastOffset.

Section Offsets.
Import Py ICal GenerateIcs Spec.

Lemma elem_of_targets_singleton (x : Z) (w : WeekdayCode) :
  x ∈ targets_of [w] <-> x = codes w.
Proof.
  rewrite elem_of_targets_of. split.
  - intros (w' & Hw & <-). apply list_elem_of_singleton in Hw. subst w'.
    reflexivity.
  - intros ->. exists w. split; [apply list_elem_of_here | reflexivity].
Qed.

Lemma days_until_spec (clock : datetime) (w : Z) :
  0 <= w <= 6 ->
  1 <= days_until clock w <= 7
  /\ weekday_of_ordinal (ordinal clock + days_until clock w) = w
  /\ forall j, 1 <= j < days_until clock w ->
       weekday_of_ordinal (ordinal clock + j) <> w.
Proof.
  intros Hw. unfold days_until, weekday, weekday_of_ordinal.
  split; [Z.div_mod_to_equations; lia|].
  split; [Z.div_mod_to_equations; lia|].
  intros j Hj. Z.div_mod_to_equations. lia.
Qed.

(** One weekday requested. *)
Lemma singleton_start (clock : datetime) (time_str : string) (hh mm : Z)
    (w : WeekdayCode) (tz : timezone) :
  time_of_day time_str hh mm -> 1 <= ordinal clock ->
  compute_start clock None time_str [w] tz =
    if ordinal clock + days_until clock (codes w) <=? MAXORDINAL
    then Ok (plus_days (at_time clock hh mm) (days_until clock (codes w)))
    else Raise OverflowError.
Proof.
  intros Ht Ho.
  destruct (days_until_spec clock (codes w) (codes_bounds w))
    as (Hk & Hwk & Hmin).
  apply compute_start_least; try assumption.
  - split; [|lia]. apply elem_of_targets_singleton. exact Hwk.
  - intros j Hj [Hin _]. apply elem_of_targets_singleton in Hin.
    exact (Hmin j Hj Hin).
Qed.

(** With a single weekday [w] requested, the start is the adjusted "now"
    moved forward by [(codes w - weekday(now) - 1) mod 7 + 1] days: between
    one and seven days, seven when today is that weekday; when that date is
    past 9999-12-31 the result is [OverflowError]. *)
Theorem single_weekday_closed_form (clock : datetime) (time_str : string)
    (hh mm : Z) (w : WeekdayCode) (tz : timezone) :
  time_of_day time_str hh mm -> 1 <= ordinal clock ->
  1 <= days_until clock (codes w) <= 7
  /\ (weekday clock = codes w -> days_until clock (codes w) = 7)
  /\ compute_start clock None time_str [w] tz =
       if ordinal clock + days_until clock (codes w) <=? MAXORDINAL
       then Ok (plus_days (at_time clock hh mm) (days_until clock (codes w)))
       else Raise OverflowError.
Proof.
  intros Ht Ho. split; [apply days_until_spec, codes_bounds|]. split.
  - intros E. unfold days_until. rewrite E.
    replace (codes w - codes w - 1) with (-1) by lia. reflexivity.
  - apply singleton_start; assumption.
Qed.

Lemma single_weekday_closed_form_witness :
  1 <= days_until wed_2025_06_04_10h (codes MO) <= 7
  /\ (weekday wed_2025_06_04_10h = codes MO ->
      days_until wed_2025_06_04_10h (codes MO) = 7)
  /\ compute_start wed_2025_06_04_10h None "18:00" [MO] Asia_Kolkata =
       if ordinal wed_2025_06_04_10h
          + days_until wed_2025_06_04_10h (codes MO) <=? MAXORDINAL
       then Ok (plus_days (at_time wed_2025_06_04_10h 18 0)
                  (days_until wed_2025_06_04_10h (codes MO)))
       else Raise OverflowError.
Proof.
  apply (single_weekday_closed_form wed_2025_06_04_10h "18:00" 18 0 MO
           Asia_Kolkata).
  - split; [vm_compute; reflexivity | lia].
  - vm_compute. discriminate.
Defined.

End Offsets.

Section Periodicity.
Import Py ICal GenerateIcs Spec.

Lemma qualifies_next_week (clock : datetime) (hh mm : Z) (T : gset Z)
    (j : Z) :
  qualifies (at_time (plus_days clock 7) hh mm) T j
  <-> qualifies (at_time clock hh mm) T j.
Proof.
  unfold qualifies, weekday_of_ordinal. cbn [at_time plus_days ordinal].
  replace ((ordinal clock + 7 + j + 6) mod 7)
    with ((ordinal clock + j + 6) mod 7)
    by (Z.div_mod_to_equations; lia).
  reflexivity.
Qed.

Lemma plus_days_plus_days (dt : datetime) (a b : Z) :
  plus_days (plus_days dt a) b = plus_days dt (a + b).
Proof. unfold plus_days. cbn. f_equal. lia. Qed.

(** The computation is periodic in the clock with period one week: a run
    exactly seven days later, with the same arguments, gives the start of
    the earlier run moved forward by seven days (all dates involved lying
    within the range of [datetime]). *)
Theorem start_moves_with_the_week (clock : datetime) (time_str : string)
    (hh mm : Z) (weekdays : list WeekdayCode) (tz : timezone) :
  time_of_day time_str hh mm ->
  1 <= ordinal clock -> ordinal clock + 14 <= MAXORDINAL ->
  exists r,
    compute_start clock None time_str weekdays tz = Ok r
    /\ compute_start (plus_days clock 7) None time_str weekdays tz
       = Ok (plus_days r 7).
Proof.
  intros Ht Hlo Hhi.
  pose proof (compute_start_cases clock time_str hh mm weekdays tz Ht) as H.
  destruct (compute_start clock None time_str weekdays tz) as [r|e].
  - destruct H as (k & Hk & -> & _ & Hmin & Hq). eexists.
    split; [reflexivity|].
    assert (Ho' : 1 <= ordinal (plus_days clock 7)) by (cbn; lia).
    destruct Hq as [Hq | [-> Hnone]].
    + rewrite (compute_start_least (plus_days clock 7) time_str hh mm
                 weekdays tz Ht Ho' k Hk).
      * cbn [plus_days ordinal].
        destruct (Z.leb_spec (ordinal clock + 7 + k) MAXORDINAL); [|lia].
        f_equal. rewrite at_time_plus_days, !plus_days_plus_days.
        f_equal. lia.
      * exact (proj2 (qualifies_next_week _ _ _ _ _) Hq).
      * intros j Hj Hc.
        exact (Hmin j Hj (proj1 (qualifies_next_week _ _ _ _ _) Hc)).
    + rewrite (compute_start_none (plus_days clock 7) time_str hh mm
                 weekdays tz Ht Ho').
      * cbn [plus_days ordinal].
        destruct (Z.leb_spec (ordinal clock + 7 + 7) MAXORDINAL); [|lia].
        f_equal.
      * intros j Hj Hc. apply (Hnone j); [lia|].
        exact (proj1 (qualifies_next_week _ _ _ _ _) Hc).
  - destruct H as (_ & k & Hk & Hnr & _). exfalso. apply Hnr.
    unfold representable. lia.
Qed.

Lemma start_moves_with_the_week_witness :
  exists r,
    compute_start fri_2025_06_06_10h None "18:00" [MO; WE] Asia_Kolkata = Ok r
    /\ compute_start (plus_days fri_2025_06_06_10h 7) None "18:00" [MO; WE]
         Asia_Kolkata = Ok (plus_days r 7).
Proof.
  apply (start_moves_with_the_week fri_2025_06_06_10h "18:00" 18 0 [MO; WE]
           Asia_Kolkata).
  - split; [vm_compute; reflexivity | lia].
  - vm_compute. discriminate.
  - vm_compute. discriminate.
Defined.

(** Requesting more weekdays never delays the start: when every day of a
    non-empty list [ws] is also in [ws'], the start computed for [ws'] is
    on a day after today and not after the day computed for [ws]. *)
Theorem more_days_never_later (clock : datetime) (time_str : string)
    (hh mm : Z) (ws ws' : list WeekdayCode) (tz : timezone) :
  time_of_day time_str hh mm -> week_ahead clock -> ws <> [] ->
  (forall w, w ∈ ws -> w ∈ ws') ->
  exists r r',
    compute_start clock None time_str ws tz = Ok r
    /\ compute_start clock None time_str ws' tz = Ok r'
    /\ ordinal clock < ordinal r' <= ordinal r.
Proof.
  intros Ht [Hlo Hhi] Hne Hsub.
  pose proof (compute_start_cases clock time_str hh mm ws tz Ht) as H.
  pose proof (compute_start_cases clock time_str hh mm ws' tz Ht) as H'.
  destruct (some_offset_qualifies (at_time clock hh mm) ws Hne)
    as (k0 & Hk0 & Hq0).
  assert (Hmono : forall j, qualifies (at_time clock hh mm) (targets_of ws) j
                    -> qualifies (at_time clock hh mm) (targets_of ws') j).
  { intros j [Hin Hpos]. split; [|exact Hpos].
    apply elem_of_targets_of in Hin. destruct Hin as (w & Hw & E).
    apply elem_of_targets_of. exists w. split; [apply Hsub; exact Hw | exact E]. }
  destruct (compute_start clock None time_str ws tz) as [r|e];
    [|destruct H as (_ & k & Hk & Hnr & _); exfalso; apply Hnr;
      unfold representable; lia].
  destruct (compute_start clock None time_str ws' tz) as [r'|e'];
    [|destruct H' as (_ & k & Hk & Hnr & _); exfalso; apply Hnr;
      unfold representable; lia].
  destruct H as (k & Hk & -> & _ & _ & Hq).
  destruct H' as (k' & Hk' & -> & _ & Hmin' & _).
  exists (plus_days (at_time clock hh mm) k),
         (plus_days (at_time clock hh mm) k').
  split; [reflexivity|]. split; [reflexivity|].
  cbn [plus_days at_time ordinal].
  destruct Hq as [Hq | [_ Hnone]];
    [|exfalso; apply (Hnone k0); [lia | exact Hq0]].
  destruct (Z.le_gt_cases k' k) as [|Hgt]; [lia|].
  exfalso. apply (Hmin' k); [lia | apply Hmono; exact Hq].
Qed.

Lemma more_days_never_later_witness :
  exists r r',
    compute_start wed_2025_06_04_10h None "18:00" [MO] Asia_Kolkata = Ok r
    /\ compute_start wed_2025_06_04_10h None "18:00" [MO; FR] Asia_Kolkata
       = Ok r'
    /\ ordinal wed_2025_06_04_10h < ordinal r' <= ordinal r.
Proof.
  apply (more_days_never_later wed_2025_06_04_10h "18:00" 18 0 [MO] [MO; FR]
           Asia_Kolkata).
  - split; [vm_compute; reflexivity | lia].
  - unfold week_ahead. vm_compute. split; discriminate.
  - discriminate.
  - intros w Hw. apply list_elem_of_singleton in Hw. subst w.
    apply list_elem_of_here.
Defined.

End Periodicity.


(* ===================================================================== *)
(** * Further properties of [main]                                        *)
(* ===================================================================== *)

Section MainEffect.
Import Py ICal GenerateIcs Spec.

Variable pytz_timezone : string -> result timezone.
Variable from_ical : list Byte.byte -> result Component.
Variable to_ical : Component -> result (list Byte.byte).
Variable os : OS.

(** Nothing merges or rejects a repeated event.  A first run on a path
    that does not exist and a second run with the same arguments at the
    same clock reading, both ending well, the parser reading the text the
    first run stored and returning VEVENT components [R]-related one by one
    to those the first run built: the document the second run stores has
    two VEVENT components, the one the parser returned for the event of the
    first run, followed by a new event equal to the event of the first
    run. *)
Theorem repeated_run_duplicates_event
    (R : Component -> Component -> Prop) (clock : datetime) (args : Args)
    (fs fs1 fs2 : filesystem) (cal1 cal1' : Component)
    (data1 : list Byte.byte) :
  fs !! arg_output args = None ->
  main pytz_timezone from_ical to_ical os clock args fs = (fs1, Ok tt) ->
  build pytz_timezone from_ical os clock args fs = Ok cal1 ->
  to_ical cal1 = Ok data1 ->
  from_ical data1 = Ok cal1' ->
  Forall2 R (subcomponents_named "VEVENT" cal1)
    (subcomponents_named "VEVENT" cal1') ->
  main pytz_timezone from_ical to_ical os clock args fs1 = (fs2, Ok tt) ->
  exists cal2 data2 ev ev',
    fs2 !! arg_output args = Some data2
    /\ to_ical cal2 = Ok data2
    /\ subcomponents_named "VEVENT" cal1 = [ev]
    /\ subcomponents_named "VEVENT" cal2 = [ev'; ev]
    /\ R ev ev'.
Proof.
  intros Hnone Hm1 Hb1 Hs1 Hrt HR Hm2.
  destruct (main_inv _ _ _ _ _ _ _ _ Hm1)
    as (cal1x & data1x & Hb1' & Hs1' & ->).
  rewrite Hb1 in Hb1'. injection Hb1' as <-.
  rewrite Hs1 in Hs1'. injection Hs1' as <-.
  destruct (main_inv _ _ _ _ _ _ _ _ Hm2) as (cal2 & data2 & Hb2 & Hs2 & ->).
  destruct (build_inv _ _ _ _ _ _ _ Hb1)
    as (tz1 & cal0 & s1 & td1 & e1 & Htz1 & Hload1 & Hst1 & Htd1 & Hadd1
        & Hcal1).
  unfold load_or_create_calendar in Hload1. rewrite Hnone in Hload1.
  rewrite new_calendar_eq in Hload1. injection Hload1 as <-.
  destruct (build_inv _ _ _ _ _ _ _ Hb2)
    as (tz2 & cal0' & s2 & td2 & e2 & Htz2 & Hload2 & Hst2 & Htd2 & Hadd2
        & Hcal2).
  destruct (load_existing _ _ _ _ _ _ _ (write_lookup _ _ _) Hload2)
    as [_ Hparse2].
  rewrite Hrt in Hparse2. injection Hparse2 as <-.
  rewrite Htz1 in Htz2. injection Htz2 as <-.
  rewrite Hst1 in Hst2. injection Hst2 as <-.
  rewrite Htd1 in Htd2. injection Htd2 as <-.
  rewrite Hadd1 in Hadd2. injection Hadd2 as <-.
  assert (Hev1 : subcomponents_named "VEVENT" cal1 = [event_of args s1 e1]).
  { subst cal1. reflexivity. }
  rewrite Hev1 in HR.
  inversion HR as [|a ev1' la lb Hab Hrest [Ha Hla] Hlb]. subst a la.
  inversion Hrest. subst lb.
  exists cal2, data2, (event_of args s1 e1), ev1'.
  split; [apply write_lookup|]. split; [exact Hs2|].
  split; [exact Hev1|]. subst cal2.
  rewrite events_after_append by reflexivity. rewrite <- Hlb.
  split; [reflexivity | exact Hab].
Qed.

End MainEffect.

Section MainRuns.
Import Py ICal GenerateIcs Spec.

Lemma repeated_run_duplicates_event_witness :
  exists cal2 data2 ev ev',
    fs_after_repeat !! arg_output args_hustle = Some data2
    /\ example_to_ical cal2 = Ok data2
    /\ subcomponents_named "VEVENT" doc_hustle = [ev]
    /\ subcomponents_named "VEVENT" cal2 = [ev'; ev]
    /\ same_lines ev ev'.
Proof.
  apply (repeated_run_duplicates_event one_zone example_from_ical
           example_to_ical no_faults same_lines wed_2025_06_04_10h
           args_hustle ∅ fs_after_hustle fs_after_repeat doc_hustle
           doc_hustle_read data_hustle);
    try exact hustle_events_same_lines; vm_compute; reflexivity.
Defined.

End MainRuns.

(* ===================================================================== *)
(** * [create_pb_hustle_ics] as a whole                                   *)
(* ===================================================================== *)

Section Demo.
Import Py ICal GenerateIcs TestIcs Spec.

Variable pytz_timezone : string -> result timezone.
Variable from_ical : list Byte.byte -> result Component.
Variable os : OS.

Lemma days_ahead_is_days_until (clock : datetime) :
  (if 4 - weekday clock <=? 0 then 4 - weekday clock + 7
   else 4 - weekday clock) = days_until clock 4.
Proof.
  unfold days_until, weekday.
  destruct (Z.leb_spec (4 - (ordinal clock + 6) mod 7) 0);
    Z.div_mod_to_equations; lia.
Qed.

(** The first-occurrence step in closed form. *)
Lemma first_friday_closed (clock : datetime) :
  valid_time clock ->
  first_friday clock =
    if (0 <? ordinal clock + days_until clock 4)
       && (ordinal clock + days_until clock 4 <=? MAXORDINAL)
    then Ok (plus_days (at_time clock 18 0) (days_until clock 4))
    else Raise OverflowError.
Proof.
  intros Hv. unfold first_friday. rewrite days_ahead_is_days_until.
  destruct (days_until_spec clock 4 ltac:(lia)) as (Hk & _).
  rewrite timedelta_of_days by lia. cbn [mbind result_bind].
  rewrite add_days by exact Hv.
  destruct ((0 <? ordinal clock + days_until clock 4)
            && (ordinal clock + days_until clock 4 <=? MAXORDINAL));
    [|reflexivity].
  cbn [mbind result_bind]. rewrite replace_hm00 by lia. reflexivity.
Qed.

(** The event both programs compose for a given first occurrence. *)
Lemma hustle_event_eq (filename : string) (first dtend : datetime) :
  event_of (args_demo filename) first dtend
  = mk_Component "VEVENT"
      [("SUMMARY", [vText "PB Hustle"]);
       ("DTSTART", [vDDDTypes first]);
       ("DTEND", [vDDDTypes dtend]);
       ("RRULE", [vRecur "weekly" [FR]])]
      [].
Proof. reflexivity. Qed.

(** [document] step by step. *)
Lemma document_eq (clock : datetime) :
  document pytz_timezone clock =
    (ist ← pytz_timezone "Asia/Kolkata";
     first ← first_friday clock;
     dtend ← Py.add first (mk_timedelta 0 3600 0);
     Ok (mk_Component "VCALENDAR" (calendar_properties "Asia/Kolkata")
           [timezone_component "Asia/Kolkata" "IST";
            event_of (args_demo "") first dtend])).
Proof. reflexivity. Qed.

Lemma build_demo_eq (clock : datetime) (filename : string)
    (fs : filesystem) :
  fs !! filename = None ->
  build pytz_timezone from_ical os clock (args_demo filename) fs =
    (tz ← pytz_timezone "Asia/Kolkata";
     first ← compute_start clock None "18:00" [FR] tz;
     dtend ← Py.add first (mk_timedelta 0 3600 0);
     Ok (mk_Component "VCALENDAR" (calendar_properties "Asia/Kolkata")
           [timezone_component "Asia/Kolkata" "Asia/Kolkata";
            event_of (args_demo "") first dtend])).
Proof.
  intros Hnone. unfold build, load_or_create_calendar.
  cbn [arg_output arg_timezone args_demo]. rewrite Hnone.
  rewrite new_calendar_eq. reflexivity.
Qed.

(** On a path that does not exist, [create_pb_hustle_ics] and
    [generate-ics.py --name "PB Hustle" --byday FR --time 18:00
    --duration 60 --timezone Asia/Kolkata] build the same document up to
    one property: the same calendar properties, the same event (start, end
    one hour later, weekly on FR), and a VTIMEZONE that differs only in the
    TZNAME of its STANDARD rule, [IST] in the first and [Asia/Kolkata] in
    the second.  They also fail together, with the same exception. *)
Theorem demo_document_matches_main (clock : datetime) (filename : string)
    (fs : filesystem) :
  valid clock -> fs !! filename = None ->
  match document pytz_timezone clock,
        build pytz_timezone from_ical os clock (args_demo filename) fs with
  | Ok d, Ok m =>
      exists ev,
        d = mk_Component "VCALENDAR" (calendar_properties "Asia/Kolkata")
              [timezone_component "Asia/Kolkata" "IST"; ev]
        /\ m = mk_Component "VCALENDAR" (calendar_properties "Asia/Kolkata")
                 [timezone_component "Asia/Kolkata" "Asia/Kolkata"; ev]
        /\ name ev = "VEVENT"
  | Raise e, Raise e' => e = e'
  | _, _ => False
  end.
Proof.
  intros [[Hlo Hhi] Hvt] Hnone.
  rewrite document_eq, (build_demo_eq clock filename fs Hnone).
  destruct (pytz_timezone "Asia/Kolkata") as [tz|e];
    cbn [mbind result_bind]; [|reflexivity].
  rewrite (first_friday_closed clock Hvt).
  rewrite (singleton_start clock "18:00" 18 0 FR tz time_of_day_18_00 Hlo).
  change (codes FR) with 4.
  destruct (days_until_spec clock 4 ltac:(lia)) as (Hk & _).
  destruct (Z.ltb_spec 0 (ordinal clock + days_until clock 4)); [|lia].
  cbn [andb].
  destruct (ordinal clock + days_until clock 4 <=? MAXORDINAL);
    cbn [mbind result_bind]; [|reflexivity].
  destruct (Py.add (plus_days (at_time clock 18 0) (days_until clock 4))
              (mk_timedelta 0 3600 0)) as [dtend|e];
    cbn [mbind result_bind]; [|reflexivity].
  eexists. split; [reflexivity|]. split; reflexivity.
Qed.

End Demo.

Section DemoRuns.
Import Py ICal GenerateIcs TestIcs Spec.

Lemma demo_document_matches_main_witness :
  match document one_zone fri_2025_06_06_10h,
        build one_zone example_from_ical no_faults fri_2025_06_06_10h
          (args_demo "pb_calendar.ics") ∅ with
  | Ok d, Ok m =>
      exists ev,
        d = mk_Component "VCALENDAR" (calendar_properties "Asia/Kolkata")
              [timezone_component "Asia/Kolkata" "IST"; ev]
        /\ m = mk_Component "VCALENDAR" (calendar_properties "Asia/Kolkata")
                 [timezone_component "Asia/Kolkata" "Asia/Kolkata"; ev]
        /\ name ev = "VEVENT"
  | Raise e, Raise e' => e = e'
  | _, _ => False
  end.
Proof.
  apply (demo_document_matches_main one_zone example_from_ical no_faults
           fri_2025_06_06_10h "pb_calendar.ics" ∅).
  - unfold valid, valid_date, valid_time. vm_compute.
    repeat split; discriminate.
  - apply lookup_empty.
Defined.

End DemoRuns.

(* ===================================================================== *)
(** * The start as the nearest requested day; runs with an explicit date  *)
(* ===================================================================== *)

Section Nearest.
Import Py ICal GenerateIcs Spec.

Lemma days_until_unique (clock : datetime) (w k : Z) :
  0 <= w <= 6 -> 1 <= k <= 7 ->
  weekday_of_ordinal (ordinal clock + k) = w -> k = days_until clock w.
Proof.
  intros Hw Hk. unfold days_until, weekday, weekday_of_ordinal.
  intros E. Z.div_mod_to_equations. lia.
Qed.

(** For a non-empty weekday list, with a week of existing dates ahead, the
    start is the adjusted "now" moved forward by the smallest of the
    distances (1 to 7 days) from today to the next occurrence of each
    requested weekday. *)
Theorem start_is_nearest_requested_day (clock : datetime)
    (time_str : string) (hh mm : Z) (weekdays : list WeekdayCode)
    (tz : timezone) :
  time_of_day time_str hh mm -> week_ahead clock -> weekdays <> [] ->
  exists k,
    compute_start clock None time_str weekdays tz
      = Ok (plus_days (at_time clock hh mm) k)
    /\ (exists w, w ∈ weekdays /\ k = days_until clock (codes w))
    /\ (forall w, w ∈ weekdays -> k <= days_until clock (codes w)).
Proof.
  intros Ht [Hlo Hhi] Hne.
  pose proof (compute_start_cases clock time_str hh mm weekdays tz Ht) as H.
  destruct (some_offset_qualifies (at_time clock hh mm) weekdays Hne)
    as (k0 & Hk0 & Hq0).
  destruct (compute_start clock None time_str weekdays tz) as [r|e];
    [|destruct H as (_ & k & Hk & Hnr & _); exfalso; apply Hnr;
      unfold representable; lia].
  destruct H as (k & Hk & -> & _ & Hmin & Hq).
  destruct Hq as [[Hin Hpos] | [_ Hnone]];
    [|exfalso; apply (Hnone k0); [lia | exact Hq0]].
  exists k. split; [reflexivity|]. split.
  - apply elem_of_targets_of in Hin. destruct Hin as (w & Hw & E).
    exists w. split; [exact Hw|]. cbn [at_time ordinal] in E.
    apply days_until_unique; [apply codes_bounds | exact Hk | auto].
  - intros w Hw.
    destruct (days_until_spec clock (codes w) (codes_bounds w))
      as (Hkw & Hwk & _).
    destruct (Z.le_gt_cases k (days_until clock (codes w))) as [|Hgt];
      [assumption|].
    exfalso. apply (Hmin (days_until clock (codes w))); [lia|].
    split; [|lia]. cbn [at_time ordinal]. rewrite Hwk.
    apply elem_of_targets_of. exists w. split; [exact Hw | reflexivity].
Qed.

Lemma start_is_nearest_requested_day_witness :
  exists k,
    compute_start wed_2025_06_04_10h None "18:00" [MO; FR] Asia_Kolkata
      = Ok (plus_days (at_time wed_2025_06_04_10h 18 0) k)
    /\ (exists w, w ∈ [MO; FR] /\ k = days_until wed_2025_06_04_10h (codes w))
    /\ (forall w, w ∈ [MO; FR] ->
          k <= days_until wed_2025_06_04_10h (codes w)).
Proof.
  apply (start_is_nearest_requested_day wed_2025_06_04_10h "18:00" 18 0
           [MO; FR] Asia_Kolkata).
  - split; [vm_compute; reflexivity | lia].
  - unfold week_ahead. vm_compute. split; discriminate.
  - discriminate.
Defined.

End Nearest.

Section ExplicitRuns.
Import Py ICal GenerateIcs Spec.

Variable pytz_timezone : string -> result timezone.
Variable from_ical : list Byte.byte -> result Component.
Variable to_ical : Component -> result (list Byte.byte).
Variable os : OS.

Lemma compute_start_explicit_any_clock (clock clock' : datetime)
    (c : ascii) (ds : string) (time_str : string)
    (weekdays : list WeekdayCode) (tz : timezone) :
  compute_start clock (Some (String c ds)) time_str weekdays tz
    = compute_start clock' (Some (String c ds)) time_str weekdays tz.
Proof. reflexivity. Qed.

(** With a non-empty [--start-date] a run does not depend on when it takes
    place: for the same arguments and the same files, two runs at any two
    clock readings end the same way and leave the same files. *)
Theorem explicit_date_run_ignores_clock (clock clock' : datetime)
    (args : Args) (fs : filesystem) (c : ascii) (ds : string) :
  arg_start_date args = Some (String c ds) ->
  main pytz_timezone from_ical to_ical os clock args fs
    = main pytz_timezone from_ical to_ical os clock' args fs.
Proof.
  intros Hd. unfold main, build. rewrite Hd.
  destruct (pytz_timezone (arg_timezone args)) as [tz|]; [|reflexivity].
  cbn [mbind result_bind].
  destruct (load_or_create_calendar from_ical os fs (arg_output args)
              (arg_timezone args)); [|reflexivity].
  cbn [mbind result_bind].
  rewrite (compute_start_explicit_any_clock clock clock'). reflexivity.
Qed.

End ExplicitRuns.

Section ExplicitRunsWitness.
Import Py ICal GenerateIcs Spec.

Lemma explicit_date_run_ignores_clock_witness :
  main one_zone example_from_ical example_to_ical no_faults
    wed_2025_06_04_10h args_hustle ∅
  = main one_zone example_from_ical example_to_ical no_faults
      fri_2025_06_13_18h args_hustle ∅.
Proof.
  apply (explicit_date_run_ignores_clock one_zone example_from_ical
           example_to_ical no_faults wed_2025_06_04_10h fri_2025_06_13_18h
           args_hustle ∅ "2" "025-06-06").
  reflexivity.
Defined.

End ExplicitRunsWitness.
